(** * The Swan VS Code extension: a model of [extension.ts]

    The only executable code of the repository is
    [packages/vscode-plugin/src/extension.ts]: the two entry points
    [activate] and [deactivate], three command handlers, one
    configuration listener and the continuation attached to the welcome
    notification.  Every statement of that file is a call into the VS Code
    extension API, so the file is embedded as a state monad over a record
    [Host] that holds what the API lets the extension read back (the
    persistent memento, the command registry, the settings, the
    subscription list of the extension context, the status-bar items) and
    a trace of the effectful API calls, in program order.

    [extension.ts] handles no error of the API, and the model has none:
    every call of the API returns.  Closures are named ([Handler],
    [Listener]) rather than stored as functions, and the code that runs
    after an [await] or in a [.then] callback is a computation of its
    own, entered in a later turn. *)

From stdpp Require Import gmap strings list fin_maps.

Open Scope string_scope.
Open Scope list_scope.

(** ** JavaScript values *)

(** The values that travel through [globalState.get] and [config.get]:
    [undefined], [null], booleans and strings.  The flag is read as a
    boolean and the log level is a string setting; numbers and objects do
    not occur in [extension.ts] and are left out. *)
Inductive jsval :=
| JUndefined
| JNull
| JBool (b : bool)
| JStr (s : string).

#[global] Instance jsval_eq_dec : EqDecision jsval.
Proof. solve_decision. Defined.

(** [ToBoolean]: what [if (v)] and [!v] test. *)
Definition truthy (v : jsval) : bool :=
  match v with
  | JUndefined | JNull => false
  | JBool b => b
  | JStr s => if decide (s = "") then false else true
  end.

(** [ToString]: what a template literal [`${v}`] splices in. *)
Definition template (v : jsval) : string :=
  match v with
  | JUndefined => "undefined"
  | JNull => "null"
  | JBool true => "true"
  | JBool false => "false"
  | JStr s => s
  end.

(** A value of type [string | undefined], as returned by [showInputBox] and
    by the promise of [showInformationMessage]: [None] is [undefined]. *)
Definition of_answer (a : option string) : jsval :=
  match a with
  | None => JUndefined
  | Some s => JStr s
  end.

(** [t] occurs in [s] as a contiguous substring. *)
Definition contains (s t : string) : Prop :=
  ∃ pre post : string, s = pre +:+ t +:+ post.

(** ** Host objects *)

Record Uri := { uri_text : string }.

#[global] Instance Uri_eq_dec : EqDecision Uri.
Proof. solve_decision. Defined.

(** [vscode.Uri.parse]: the model keeps the text the URI was parsed from. *)
Definition Uri_parse (value : string) : Uri := {| uri_text := value |}.

Inductive StatusBarAlignment := AlignLeft | AlignRight.

#[global] Instance StatusBarAlignment_eq_dec : EqDecision StatusBarAlignment.
Proof. solve_decision. Defined.

Record StatusBarItem := {
  alignment : StatusBarAlignment;
  priority : Z;
  text : string;
  tooltip : option string;
  command : option string;
  visible : bool
}.

(** The closures handed to [registerCommand], by name. *)
Inductive Handler := HelloWorld | OpenDocs | CreateProject.

#[global] Instance Handler_eq_dec : EqDecision Handler.
Proof. solve_decision. Defined.

(** The closure handed to [onDidChangeConfiguration]. *)
Inductive Listener := SwanConfigListener.

#[global] Instance Listener_eq_dec : EqDecision Listener.
Proof. solve_decision. Defined.

(** What the host returns for a registration, and what it can later
    dispose: a command registration (identified by its command id), a
    status-bar item, an event subscription. *)
Inductive Disposable :=
| DCommand (id : string)
| DStatusBarItem (item : nat)
| DListener (slot : nat).

#[global] Instance Disposable_eq_dec : EqDecision Disposable.
Proof. solve_decision. Defined.

Record InputBoxOptions := {
  prompt : option string;
  placeHolder : option string
}.

#[global] Instance InputBoxOptions_eq_dec : EqDecision InputBoxOptions.
Proof. solve_decision. Defined.

(** A [ConfigurationChangeEvent] is an object with one method. *)
Record ConfigurationChangeEvent := {
  affectsConfiguration : string → bool
}.

(** The effectful API calls, as they appear in the trace. *)
Inductive Event :=
| ConsoleLog (line : string)
| RegisterCommand (id : string) (h : Handler)
| ShowInformationMessage (message : string) (items : list string)
| OpenExternal (target : Uri)
| ShowInputBox (options : InputBoxOptions)
| CreateTerminal (name : string) (terminal : nat)
| TerminalSendText (terminal : nat) (line : string)
| TerminalShow (terminal : nat)
| CreateStatusBarItem (a : StatusBarAlignment) (p : Z) (item : nat)
| StatusBarItemShow (item : nat)
| OnDidChangeConfiguration (l : Listener) (slot : nat)
| GlobalStateUpdate (key : string) (value : jsval)
| ExecuteCommand (id : string).

#[global] Instance Event_eq_dec : EqDecision Event.
Proof. solve_decision. Defined.

Record Host := {
  globalState : gmap string jsval;        (* context.globalState *)
  subscriptions : list Disposable;        (* context.subscriptions *)
  commands : gmap string Handler;         (* vscode.commands *)
  configListeners : list Listener;        (* onDidChangeConfiguration *)
  statusBarItems : gmap nat StatusBarItem;
  terminals : nat;                        (* terminals created so far *)
  configuration : gmap string jsval;      (* effective settings, by full key *)
  trace : list Event
}.

(** A host in which nothing has happened yet: a fresh installation. *)
Definition fresh_install : Host :=
  {| globalState := ∅; subscriptions := []; commands := ∅;
     configListeners := []; statusBarItems := ∅; terminals := 0;
     configuration := ∅; trace := [] |}.

(** ** The monad of host calls *)

Definition M (A : Type) : Type := Host → A * Host.

Definition ret {A} (a : A) : M A := λ s, (a, s).

Definition bind {A B} (m : M A) (k : A → M B) : M B :=
  λ s, let (a, s') := m s in k a s'.

Definition exec {A} (m : M A) (s : Host) : Host := snd (m s).

Declare Scope host_scope.
Delimit Scope host_scope with host.
Notation "'let*' x ':=' m 'in' k" := (bind m (λ x, k))
  (at level 10, x name, m at level 100, k at level 200) : host_scope.
Notation "m '>>' k" := (bind m (λ _, k))
  (at level 100, k at level 200, right associativity) : host_scope.
Open Scope host_scope.

(** [s] with the events [es] appended to its trace, and nothing else
    changed. *)
Definition log (es : list Event) (s : Host) : Host :=
  {| globalState := globalState s; subscriptions := subscriptions s;
     commands := commands s; configListeners := configListeners s;
     statusBarItems := statusBarItems s; terminals := terminals s;
     configuration := configuration s; trace := trace s ++ es |}.

Definition emit (e : Event) : M unit := λ s, (tt, log [e] s).

(** *** The API, as far as [extension.ts] uses it *)

Definition console_log (line : string) : M unit := emit (ConsoleLog line).

(** [registerCommand] binds [id] to the handler.  On an id that is already
    bound the host raises an error; the model rebinds it, and the
    statements that activate more than once either do not depend on the
    registry or are about sessions that start with the three ids free. *)
Definition commands_registerCommand (id : string) (h : Handler) : M Disposable :=
  λ s, (DCommand id,
        {| globalState := globalState s; subscriptions := subscriptions s;
           commands := <[id := h]> (commands s);
           configListeners := configListeners s;
           statusBarItems := statusBarItems s; terminals := terminals s;
           configuration := configuration s;
           trace := trace s ++ [RegisterCommand id h] |}).

(** The call shows the notification and returns a promise; what the user
    answers arrives in a later turn, with the continuation of the caller. *)
Definition window_showInformationMessage (message : string)
    (items : list string) : M unit :=
  emit (ShowInformationMessage message items).

Definition env_openExternal (target : Uri) : M unit :=
  emit (OpenExternal target).

(** The call opens the box and returns a promise. *)
Definition window_showInputBox (options : InputBoxOptions) : M unit :=
  emit (ShowInputBox options).

Definition window_createTerminal (name : string) : M nat :=
  λ s, (terminals s,
        {| globalState := globalState s; subscriptions := subscriptions s;
           commands := commands s; configListeners := configListeners s;
           statusBarItems := statusBarItems s; terminals := S (terminals s);
           configuration := configuration s;
           trace := trace s ++ [CreateTerminal name (terminals s)] |}).

Definition terminal_sendText (terminal : nat) (line : string) : M unit :=
  emit (TerminalSendText terminal line).

Definition terminal_show (terminal : nat) : M unit :=
  emit (TerminalShow terminal).

Definition set_statusBarItems (items : gmap nat StatusBarItem) : M unit :=
  λ s, (tt,
        {| globalState := globalState s; subscriptions := subscriptions s;
           commands := commands s; configListeners := configListeners s;
           statusBarItems := items; terminals := terminals s;
           configuration := configuration s; trace := trace s |}).

(** A new item is empty and hidden; its handle is one no live item has. *)
Definition window_createStatusBarItem (a : StatusBarAlignment) (p : Z) : M nat :=
  λ s, let item := fresh (dom (statusBarItems s)) in
       (item,
        {| globalState := globalState s; subscriptions := subscriptions s;
           commands := commands s; configListeners := configListeners s;
           statusBarItems :=
             <[item := {| alignment := a; priority := p; text := "";
                          tooltip := None; command := None;
                          visible := false |}]> (statusBarItems s);
           terminals := terminals s; configuration := configuration s;
           trace := trace s ++ [CreateStatusBarItem a p item] |}).

Definition alter_statusBarItem (f : StatusBarItem → StatusBarItem)
    (item : nat) : M unit :=
  λ s, set_statusBarItems (alter f item (statusBarItems s)) s.

Definition statusBarItem_set_text (item : nat) (v : string) : M unit :=
  alter_statusBarItem
    (λ i, {| alignment := alignment i; priority := priority i; text := v;
             tooltip := tooltip i; command := command i;
             visible := visible i |}) item.

Definition statusBarItem_set_tooltip (item : nat) (v : string) : M unit :=
  alter_statusBarItem
    (λ i, {| alignment := alignment i; priority := priority i; text := text i;
             tooltip := Some v; command := command i;
             visible := visible i |}) item.

Definition statusBarItem_set_command (item : nat) (v : string) : M unit :=
  alter_statusBarItem
    (λ i, {| alignment := alignment i; priority := priority i; text := text i;
             tooltip := tooltip i; command := Some v;
             visible := visible i |}) item.

Definition statusBarItem_show (item : nat) : M unit :=
  alter_statusBarItem
    (λ i, {| alignment := alignment i; priority := priority i; text := text i;
             tooltip := tooltip i; command := command i;
             visible := true |}) item
  >> emit (StatusBarItemShow item).

(** [context.subscriptions.push(...)] *)
Definition subscriptions_push (ds : list Disposable) : M unit :=
  λ s, (tt,
        {| globalState := globalState s;
           subscriptions := subscriptions s ++ ds;
           commands := commands s; configListeners := configListeners s;
           statusBarItems := statusBarItems s; terminals := terminals s;
           configuration := configuration s; trace := trace s |}).

Definition workspace_onDidChangeConfiguration (l : Listener) : M Disposable :=
  λ s, (DListener (length (configListeners s)),
        {| globalState := globalState s; subscriptions := subscriptions s;
           commands := commands s;
           configListeners := configListeners s ++ [l];
           statusBarItems := statusBarItems s; terminals := terminals s;
           configuration := configuration s;
           trace := trace s
                    ++ [OnDidChangeConfiguration l (length (configListeners s))] |}).

(** [getConfiguration(section)] is a view of the settings under [section]. *)
Record WorkspaceConfiguration := {
  cfg_section : string;
  cfg_values : gmap string jsval
}.

Definition workspace_getConfiguration (section : string) : M WorkspaceConfiguration :=
  λ s, ({| cfg_section := section; cfg_values := configuration s |}, s).

(** [config.get(key)]: [undefined] when the setting has no value. *)
Definition config_get (cfg : WorkspaceConfiguration) (key : string) : jsval :=
  default JUndefined (cfg_values cfg !! (cfg_section cfg +:+ "." +:+ key)).

(** [globalState.get(key, defaultValue)]: the stored value, or the default
    when nothing (or [undefined]) is stored. *)
Definition memento_get (m : gmap string jsval) (key : string) (dflt : jsval) : jsval :=
  match m !! key with
  | Some JUndefined | None => dflt
  | Some v => v
  end.

Definition globalState_get (key : string) (dflt : jsval) : M jsval :=
  λ s, (memento_get (globalState s) key dflt, s).

(** [globalState.update(key, value)]: the new value is what later [get]s
    return. *)
Definition globalState_update (key : string) (value : jsval) : M unit :=
  λ s, (tt,
        {| globalState := <[key := value]> (globalState s);
           subscriptions := subscriptions s;
           commands := commands s; configListeners := configListeners s;
           statusBarItems := statusBarItems s; terminals := terminals s;
           configuration := configuration s;
           trace := trace s ++ [GlobalStateUpdate key value] |}).

(** ** [extension.ts] *)

Definition hasShownWelcome_key : string := "swan.hasShownWelcome".

Definition welcome_message : string := "Welcome to Swan VS Code Extension! 🦢".
Definition welcome_items : list string := ["Open Docs"; "Create Project"].

(** The handler registered as [swan.helloWorld]. *)
Definition helloWorldCommand_handler : M unit :=
  window_showInformationMessage "Hello World from Swan!" [].

(** The handler registered as [swan.openDocs]. *)
Definition openDocsCommand_handler : M unit :=
  env_openExternal (Uri_parse "https://your-swan-docs-url.com").

(** The handler registered as [swan.createProject] is asynchronous.  It
    runs up to its [await] in the turn that invokes it: *)
Definition createProjectCommand_start : M unit :=
  window_showInputBox {| prompt := Some "Enter project name";
                         placeHolder := Some "my-swan-project" |}.

(** and it runs the rest when the promise of the input box settles;
    [projectName] is [None] when the box was dismissed and [Some t] when
    it was accepted with the text [t]. *)
Definition createProjectCommand_resume (projectName : option string) : M unit :=
  if truthy (of_answer projectName) then
    let* terminal := window_createTerminal "Swan Project Setup" in
    terminal_sendText terminal
      ("pnpm create swan-app " +:+ template (of_answer projectName)) >>
    terminal_show terminal >>
    window_showInformationMessage
      ("Creating Swan project: " +:+ template (of_answer projectName)) []
  else ret tt.

(** One whole invocation of the handler, the input box answered with
    [answer]. *)
Definition createProjectCommand_handler (answer : option string) : M unit :=
  createProjectCommand_start >> createProjectCommand_resume answer.

(** What a handler does in the turn that invokes it. *)
Definition run_handler (h : Handler) : M unit :=
  match h with
  | HelloWorld => helloWorldCommand_handler
  | OpenDocs => openDocsCommand_handler
  | CreateProject => createProjectCommand_start
  end.

(** The host runs the handler registered under [id], if there is one. *)
Definition dispatch (id : string) : M unit :=
  λ s, match commands s !! id with
       | Some h => run_handler h s
       | None => (tt, s)
       end.

(** [vscode.commands.executeCommand(id)] *)
Definition commands_executeCommand (id : string) : M unit :=
  emit (ExecuteCommand id) >> dispatch id.

(** The listener passed to [onDidChangeConfiguration]. *)
Definition configuration_listener (event : ConfigurationChangeEvent) : M unit :=
  if affectsConfiguration event "swan" then
    let* config := workspace_getConfiguration "swan" in
    let logLevel := config_get config "logLevel" in
    console_log ("Swan log level changed to: " +:+ template logLevel)
  else ret tt.

Definition run_listener (l : Listener) (event : ConfigurationChangeEvent) : M unit :=
  match l with
  | SwanConfigListener => configuration_listener event
  end.

(** The callback given to [.then] on the welcome notification; it runs
    when the user answers: [selection] is the item picked, [None] when the
    notification is dismissed. *)
Definition welcome_then (selection : option string) : M unit :=
  if decide (selection = Some "Open Docs") then
    commands_executeCommand "swan.openDocs"
  else if decide (selection = Some "Create Project") then
    commands_executeCommand "swan.createProject"
  else ret tt.

(** [activate(context)].  The promise of the welcome notification gets
    [welcome_then] as its continuation; the promise of
    [globalState.update] is dropped. *)
Definition activate : M unit :=
  console_log "Swan VS Code Extension is now active!" >>
  let* helloWorldCommand :=
    commands_registerCommand "swan.helloWorld" HelloWorld in
  let* openDocsCommand :=
    commands_registerCommand "swan.openDocs" OpenDocs in
  let* createProjectCommand :=
    commands_registerCommand "swan.createProject" CreateProject in
  let* statusBarItem := window_createStatusBarItem AlignRight 100 in
  statusBarItem_set_text statusBarItem "$(rocket) Swan" >>
  statusBarItem_set_tooltip statusBarItem "Swan Development Tools" >>
  statusBarItem_set_command statusBarItem "swan.helloWorld" >>
  statusBarItem_show statusBarItem >>
  subscriptions_push [helloWorldCommand; openDocsCommand;
                      createProjectCommand; DStatusBarItem statusBarItem] >>
  let* _ := workspace_onDidChangeConfiguration SwanConfigListener in
  let* hasShownWelcome := globalState_get hasShownWelcome_key (JBool false) in
  if negb (truthy hasShownWelcome) then
    window_showInformationMessage welcome_message welcome_items >>
    globalState_update hasShownWelcome_key (JBool true)
  else ret tt.

Definition deactivate : M unit :=
  console_log "Swan VS Code Extension is now deactivated".

(** ** Runs of the extension *)

(** The ways the host enters the extension's code, one turn of the event
    loop each: the two entry points, the invocation of a command (from
    the palette or from the status-bar item), the answer to an open input
    box, the answer to the welcome notification, a configuration
    change. *)
Inductive Call :=
| CallActivate
| CallDeactivate
| CallCommand (id : string)
| CallInputBoxAnswer (answer : option string)
| CallWelcomeChoice (selection : option string)
| CallConfigurationChanged (event : ConfigurationChangeEvent).

(** A configuration change is delivered to every registered listener.
    [CallDeactivate] below is the extension's [deactivate] alone; what the
    host does after it is [host_unload]. *)
Fixpoint deliver (ls : list Listener) (event : ConfigurationChangeEvent) : M unit :=
  match ls with
  | [] => ret tt
  | l :: ls' => run_listener l event >> deliver ls' event
  end.

Definition call (c : Call) : M unit :=
  match c with
  | CallActivate => activate
  | CallDeactivate => deactivate
  | CallCommand id => dispatch id
  | CallInputBoxAnswer answer => createProjectCommand_resume answer
  | CallWelcomeChoice selection => welcome_then selection
  | CallConfigurationChanged event =>
      λ s, deliver (configListeners s) event s
  end.

Definition run (cs : list Call) (s : Host) : Host :=
  foldl (λ s' c, exec (call c) s') s cs.

(** The part of the trace that [m] adds when run from [s]. *)
Definition emitted {A} (m : M A) (s : Host) : list Event :=
  drop (length (trace s)) (trace (exec m s)).

(** *** Counting calls in a trace *)

Definition count (p : Event → bool) (t : list Event) : nat :=
  length (filter (λ e, p e = true) t).

Definition is_information (e : Event) : bool :=
  match e with ShowInformationMessage _ _ => true | _ => false end.

Definition is_welcome (e : Event) : bool :=
  bool_decide (e = ShowInformationMessage welcome_message welcome_items).

Definition is_openExternal (e : Event) : bool :=
  match e with OpenExternal _ => true | _ => false end.

Definition is_createTerminal (e : Event) : bool :=
  match e with CreateTerminal _ _ => true | _ => false end.

Definition is_sendText (e : Event) : bool :=
  match e with TerminalSendText _ _ => true | _ => false end.

Definition is_terminalShow (e : Event) : bool :=
  match e with TerminalShow _ => true | _ => false end.

Definition is_createStatusBarItem (e : Event) : bool :=
  match e with CreateStatusBarItem _ _ _ => true | _ => false end.

Definition is_consoleLog (e : Event) : bool :=
  match e with ConsoleLog _ => true | _ => false end.

Definition is_update (e : Event) : bool :=
  match e with GlobalStateUpdate _ _ => true | _ => false end.

(** The persisted flag is well typed: absent, or a boolean, as the call
    [get("swan.hasShownWelcome", false)] takes it to be. *)
Definition flag_typed (s : Host) : Prop :=
  globalState s !! hasShownWelcome_key = None
  ∨ ∃ b : bool, globalState s !! hasShownWelcome_key = Some (JBool b).

(** The flag reads false: it is absent or stored as [false]. *)
Definition flag_reads_false (s : Host) : Prop :=
  globalState s !! hasShownWelcome_key = None
  ∨ globalState s !! hasShownWelcome_key = Some (JBool false).

Definition flag_is_true (s : Host) : Prop :=
  globalState s !! hasShownWelcome_key = Some (JBool true).

(** The local constant [hasShownWelcome] of [activate], as its [if] tests
    it. *)
Definition hasShownWelcome (s : Host) : bool :=
  truthy (memento_get (globalState s) hasShownWelcome_key (JBool false)).

(** The status-bar item as [activate] leaves it. *)
Definition swan_statusBarItem : StatusBarItem :=
  {| alignment := AlignRight; priority := 100; text := "$(rocket) Swan";
     tooltip := Some "Swan Development Tools";
     command := Some "swan.helloWorld"; visible := true |}.

(** The handle the next status-bar item gets. *)
Definition next_item (s : Host) : nat := fresh (dom (statusBarItems s)).

(** The four disposables [activate] pushes. *)
Definition pushed (s : Host) : list Disposable :=
  [DCommand "swan.helloWorld"; DCommand "swan.openDocs";
   DCommand "swan.createProject"; DStatusBarItem (next_item s)].

(** The disposable [onDidChangeConfiguration] returns during [activate]. *)
Definition listener_disposable (s : Host) : Disposable :=
  DListener (length (configListeners s)).

(** The calls [activate] makes before it looks at the flag. *)
Definition registration_events (s : Host) : list Event :=
  [ConsoleLog "Swan VS Code Extension is now active!";
   RegisterCommand "swan.helloWorld" HelloWorld;
   RegisterCommand "swan.openDocs" OpenDocs;
   RegisterCommand "swan.createProject" CreateProject;
   CreateStatusBarItem AlignRight 100 (next_item s);
   StatusBarItemShow (next_item s);
   OnDidChangeConfiguration SwanConfigListener (length (configListeners s))].

Definition welcome_events : list Event :=
  [ShowInformationMessage welcome_message welcome_items;
   GlobalStateUpdate hasShownWelcome_key (JBool true)].

(** What one delivery of a configuration change to the listener logs. *)
Definition listener_events (event : ConfigurationChangeEvent) (s : Host) : list Event :=
  if affectsConfiguration event "swan" then
    [ConsoleLog ("Swan log level changed to: "
                 +:+ template (default JUndefined
                                 (configuration s !! "swan.logLevel")))]
  else [].

(** A step from [s] to [s'] is quiet when it leaves the memento, the
    registrations, the subscription list, the status-bar items and the
    settings alone, and adds to the trace neither a welcome notification
    nor a write to the memento. *)
Definition quiet (s s' : Host) : Prop :=
  globalState s' = globalState s
  ∧ subscriptions s' = subscriptions s
  ∧ commands s' = commands s
  ∧ configListeners s' = configListeners s
  ∧ statusBarItems s' = statusBarItems s
  ∧ configuration s' = configuration s
  ∧ ∃ es, trace s' = trace s ++ es
          ∧ count is_welcome es = 0 ∧ count is_update es = 0.

(** *** Whole runs *)

Definition is_activate (c : Call) : bool :=
  match c with CallActivate => true | _ => false end.

(** The number of activations in a run. *)
Definition activations (cs : list Call) : nat :=
  length (filter (λ c, is_activate c = true) cs).

(** The part of the trace that the run [cs] adds when started from [s]. *)
Definition emitted_run (cs : list Call) (s : Host) : list Event :=
  drop (length (trace s)) (trace (run cs s)).

Definition is_terminal_event (e : Event) : bool :=
  match e with
  | CreateTerminal _ _ | TerminalSendText _ _ | TerminalShow _ => true
  | _ => false
  end.

(** The calls on terminals in a trace, in order. *)
Definition terminal_events (t : list Event) : list Event :=
  filter (λ e, is_terminal_event e = true) t.

(** The texts sent to the terminal [t] in a trace, in order. *)
Definition sent_to (t : nat) (es : list Event) : list string :=
  omap (λ e, match e with
             | TerminalSendText t' line =>
                 if decide (t' = t) then Some line else None
             | _ => None
             end) es.

(** The non-empty names answered to an input box in a run, in order. *)
Definition answered_names (cs : list Call) : list string :=
  omap (λ c, match c with
             | CallInputBoxAnswer (Some N) =>
                 if decide (N = "") then None else Some N
             | _ => None
             end) cs.

(** One terminal per name, numbered from [first]: it is created, sent
    the scaffold command for that name, and revealed. *)
Fixpoint scaffold_events (first : nat) (names : list string) : list Event :=
  match names with
  | [] => []
  | N :: names' =>
      [CreateTerminal "Swan Project Setup" first;
       TerminalSendText first ("pnpm create swan-app " +:+ N);
       TerminalShow first]
      ++ scaffold_events (S first) names'
  end.

(** *** The host's side of a session *)

(** Modelled from the spec: the release of the disposal list, which is
    code of the host and not of the repository.  Sections 3 and 4.1 say
    that the registrations and the status-bar item handed to
    [context.subscriptions] are destroyed when the extension is
    deactivated.  Disposing a command registration unbinds its id,
    disposing a status-bar item removes it, disposing a listener
    subscription removes that listener. *)
Definition dispose (d : Disposable) (s : Host) : Host :=
  match d with
  | DCommand id =>
      {| globalState := globalState s; subscriptions := subscriptions s;
         commands := delete id (commands s);
         configListeners := configListeners s;
         statusBarItems := statusBarItems s; terminals := terminals s;
         configuration := configuration s; trace := trace s |}
  | DStatusBarItem item =>
      {| globalState := globalState s; subscriptions := subscriptions s;
         commands := commands s; configListeners := configListeners s;
         statusBarItems := delete item (statusBarItems s);
         terminals := terminals s;
         configuration := configuration s; trace := trace s |}
  | DListener slot =>
      {| globalState := globalState s; subscriptions := subscriptions s;
         commands := commands s;
         configListeners := delete slot (configListeners s);
         statusBarItems := statusBarItems s; terminals := terminals s;
         configuration := configuration s; trace := trace s |}
  end.

(** Modelled from the spec: what the host does after [deactivate] has
    returned.  It disposes every entry of [context.subscriptions], in
    order; the next activation gets a context whose list is empty. *)
Definition host_unload (s : Host) : Host :=
  let s' := foldl (λ s0 d, dispose d s0) s (subscriptions s) in
  {| globalState := globalState s'; subscriptions := [];
     commands := commands s'; configListeners := configListeners s';
     statusBarItems := statusBarItems s'; terminals := terminals s';
     configuration := configuration s'; trace := trace s' |}.

(** The turns of a session, between [activate] and [deactivate]. *)
Definition is_session_turn (c : Call) : bool :=
  match c with
  | CallActivate | CallDeactivate => false
  | _ => true
  end.

(** One session: the host activates the extension, the turns [cs] run,
    the host deactivates the extension and releases its disposal list. *)
Definition session (cs : list Call) (s : Host) : Host :=
  host_unload (exec deactivate (run cs (exec activate s))).

(** Sessions one after the other, on one installation. *)
Definition lifecycle (css : list (list Call)) (s : Host) : Host :=
  foldl (λ s0 cs, session cs s0) s css.

(** The three command ids are bound to their handlers. *)
Definition registered (s : Host) : Prop :=
  commands s !! "swan.helloWorld" = Some HelloWorld
  ∧ commands s !! "swan.openDocs" = Some OpenDocs
  ∧ commands s !! "swan.createProject" = Some CreateProject.

(** What each turn adds to the trace, read off the handlers; [call_trace]
    below shows that this is what [call] does. *)
Definition handler_events (h : Handler) : list Event :=
  match h with
  | HelloWorld => [ShowInformationMessage "Hello World from Swan!" []]
  | OpenDocs => [OpenExternal (Uri_parse "https://your-swan-docs-url.com")]
  | CreateProject =>
      [ShowInputBox {| prompt := Some "Enter project name";
                       placeHolder := Some "my-swan-project" |}]
  end.

Definition dispatch_events (id : string) (s : Host) : list Event :=
  match commands s !! id with
  | Some h => handler_events h
  | None => []
  end.

Definition resume_events (answer : option string) (s : Host) : list Event :=
  if truthy (of_answer answer) then
    [CreateTerminal "Swan Project Setup" (terminals s);
     TerminalSendText (terminals s)
       ("pnpm create swan-app " +:+ template (of_answer answer));
     TerminalShow (terminals s);
     ShowInformationMessage
       ("Creating Swan project: " +:+ template (of_answer answer)) []]
  else [].

Definition call_events (c : Call) (s : Host) : list Event :=
  match c with
  | CallActivate =>
      registration_events s ++ (if hasShownWelcome s then [] else welcome_events)
  | CallDeactivate => [ConsoleLog "Swan VS Code Extension is now deactivated"]
  | CallCommand id => dispatch_events id s
  | CallInputBoxAnswer answer => resume_events answer s
  | CallWelcomeChoice selection =>
      if decide (selection = Some "Open Docs") then
        ExecuteCommand "swan.openDocs" :: dispatch_events "swan.openDocs" s
      else if decide (selection = Some "Create Project") then
        ExecuteCommand "swan.createProject"
          :: dispatch_events "swan.createProject" s
      else []
  | CallConfigurationChanged event =>
      mjoin (map (λ _, listener_events event s) (configListeners s))
  end.

(** Case analysis on membership in a list written out in full; the
    impossible cases are closed. *)
Ltac elem_cases H :=
  repeat (apply elem_of_cons in H as [H | H]; [try discriminate H |]);
  try (by apply elem_of_nil in H).

(** ** Basic facts about the monad and the trace *)

Lemma log_log es es' s : log es' (log es s) = log (es ++ es') s.
Proof. unfold log; simpl. by rewrite app_assoc. Qed.

Lemma emitted_log {A} (m : M A) es s s0 :
  exec m s = s0 → trace s0 = trace s ++ es → emitted m s = es.
Proof.
  intros <- Ht. unfold emitted. rewrite Ht. apply drop_app_length.
Qed.

Lemma count_app p t1 t2 : count p (t1 ++ t2) = count p t1 + count p t2.
Proof. unfold count. by rewrite filter_app, length_app. Qed.

Lemma string_app_empty_r (s : string) : s +:+ "" = s.
Proof.
  induction s as [|a s IH]; [done|].
  change (String a (s +:+ "") = String a s). by rewrite IH.
Qed.

Lemma contains_suffix (pre t : string) : contains (pre +:+ t) t.
Proof. exists pre, "". by rewrite string_app_empty_r. Qed.

Lemma count_nil p : count p [] = 0.
Proof. reflexivity. Qed.

Lemma count_cons p e t :
  count p (e :: t) = (if p e then 1 else 0) + count p t.
Proof.
  unfold count. rewrite filter_cons.
  destruct (p e); case_decide; simpl; congruence.
Qed.

Lemma is_welcome_no_items m : is_welcome (ShowInformationMessage m []) = false.
Proof. apply bool_decide_eq_false. unfold welcome_items. intros [=]. Qed.

Lemma quiet_refl s : quiet s s.
Proof.
  repeat split; try done. exists []. by rewrite app_nil_r.
Qed.

Lemma quiet_trans s1 s2 s3 : quiet s1 s2 → quiet s2 s3 → quiet s1 s3.
Proof.
  intros (Hg & Hs & Hc & Hl & Hb & Hf & es & Ht & Hw & Hu)
         (Hg' & Hs' & Hc' & Hl' & Hb' & Hf' & es' & Ht' & Hw' & Hu').
  repeat split; try congruence.
  exists (es ++ es'). rewrite !count_app. split; [|lia].
  by rewrite Ht', Ht, <- app_assoc.
Qed.

Lemma quiet_log es s :
  count is_welcome es = 0 → count is_update es = 0 → quiet s (log es s).
Proof. intros Hw Hu. repeat split; try done. by exists es. Qed.

(** ** The commands *)

(** Running the greeting handler appends one notification to the trace and
    changes nothing else. *)
Lemma helloWorld_exec s :
  exec helloWorldCommand_handler s
  = log [ShowInformationMessage "Hello World from Swan!" []] s.
Proof. reflexivity. Qed.

Lemma openDocs_exec s :
  exec openDocsCommand_handler s
  = log [OpenExternal (Uri_parse "https://your-swan-docs-url.com")] s.
Proof. reflexivity. Qed.

Lemma deactivate_exec s :
  exec deactivate s
  = log [ConsoleLog "Swan VS Code Extension is now deactivated"] s.
Proof. reflexivity. Qed.

Lemma createProject_exec answer s :
  exec (createProjectCommand_handler answer) s
  = if truthy (of_answer answer) then
      {| globalState := globalState s; subscriptions := subscriptions s;
         commands := commands s; configListeners := configListeners s;
         statusBarItems := statusBarItems s; terminals := S (terminals s);
         configuration := configuration s;
         trace := trace s ++
           [ShowInputBox {| prompt := Some "Enter project name";
                            placeHolder := Some "my-swan-project" |};
            CreateTerminal "Swan Project Setup" (terminals s);
            TerminalSendText (terminals s)
              ("pnpm create swan-app " +:+ template (of_answer answer));
            TerminalShow (terminals s);
            ShowInformationMessage
              ("Creating Swan project: " +:+ template (of_answer answer)) []] |}
    else
      log [ShowInputBox {| prompt := Some "Enter project name";
                           placeHolder := Some "my-swan-project" |}] s.
Proof.
  unfold createProjectCommand_handler, createProjectCommand_resume,
    exec, bind; simpl.
  destruct (truthy (of_answer answer)); [|done].
  simpl; unfold log; simpl. f_equal. by rewrite <- !app_assoc.
Qed.

Lemma createProject_resume_exec answer s :
  exec (createProjectCommand_resume answer) s
  = if truthy (of_answer answer) then
      {| globalState := globalState s; subscriptions := subscriptions s;
         commands := commands s; configListeners := configListeners s;
         statusBarItems := statusBarItems s; terminals := S (terminals s);
         configuration := configuration s;
         trace := trace s ++
           [CreateTerminal "Swan Project Setup" (terminals s);
            TerminalSendText (terminals s)
              ("pnpm create swan-app " +:+ template (of_answer answer));
            TerminalShow (terminals s);
            ShowInformationMessage
              ("Creating Swan project: " +:+ template (of_answer answer)) []] |}
    else s.
Proof.
  unfold createProjectCommand_resume, exec, bind; simpl.
  destruct (truthy (of_answer answer)); [|done].
  simpl; unfold log; simpl. f_equal. by rewrite <- !app_assoc.
Qed.

(** ** The configuration listener *)

Lemma listener_exec event s :
  exec (configuration_listener event) s = log (listener_events event s) s.
Proof.
  unfold configuration_listener, listener_events, exec, bind; simpl.
  destruct (affectsConfiguration event "swan"); simpl; [done|].
  unfold log; simpl. by rewrite app_nil_r; destruct s.
Qed.

Lemma deliver_exec ls event s :
  exec (deliver ls event) s
  = log (mjoin (map (λ _, listener_events event s) ls)) s.
Proof.
  revert s. induction ls as [|[] ls IH]; intros s; simpl.
  - unfold exec, ret, log; simpl. rewrite app_nil_r. by destruct s.
  - unfold exec, bind in *. simpl.
    pose proof (listener_exec event s) as Hl. unfold exec in Hl.
    destruct (configuration_listener event s) as [[] s1]; simpl in *.
    subst s1. rewrite IH, log_log. done.
Qed.

(** ** Activation *)

Lemma activate_trace s :
  trace (exec activate s)
  = trace s ++ registration_events s
      ++ (if hasShownWelcome s then [] else welcome_events).
Proof.
  unfold activate, exec, bind, hasShownWelcome; simpl.
  destruct (truthy _); simpl; rewrite <- ?app_assoc; done.
Qed.

Lemma activate_globalState s :
  globalState (exec activate s)
  = if hasShownWelcome s then globalState s
    else <[hasShownWelcome_key := JBool true]> (globalState s).
Proof.
  unfold activate, exec, bind, hasShownWelcome; simpl.
  destruct (truthy _); done.
Qed.

Lemma activate_subscriptions s :
  subscriptions (exec activate s) = subscriptions s ++ pushed s.
Proof.
  unfold activate, exec, bind; simpl. destruct (negb _); done.
Qed.

Lemma activate_configListeners s :
  configListeners (exec activate s) = configListeners s ++ [SwanConfigListener].
Proof.
  unfold activate, exec, bind; simpl. destruct (negb _); done.
Qed.

Lemma activate_commands s :
  commands (exec activate s)
  = <["swan.createProject" := CreateProject]>
      (<["swan.openDocs" := OpenDocs]>
         (<["swan.helloWorld" := HelloWorld]> (commands s))).
Proof.
  unfold activate, exec, bind; simpl. destruct (negb _); done.
Qed.

Lemma activate_statusBarItems s :
  statusBarItems (exec activate s)
  = <[next_item s := swan_statusBarItem]> (statusBarItems s).
Proof.
  unfold activate, exec, bind; simpl.
  destruct (negb _); simpl; by rewrite !alter_insert_eq.
Qed.

Lemma activate_terminals s : terminals (exec activate s) = terminals s.
Proof.
  unfold activate, exec, bind; simpl. destruct (negb _); done.
Qed.

Lemma activate_configuration s :
  configuration (exec activate s) = configuration s.
Proof.
  unfold activate, exec, bind; simpl. destruct (negb _); done.
Qed.

(** ** Every entry point other than [activate] is quiet *)

Lemma run_handler_quiet h s : quiet s (exec (run_handler h) s).
Proof.
  destruct h; simpl.
  - rewrite helloWorld_exec. apply quiet_log; [|done].
    by rewrite count_cons, is_welcome_no_items.
  - rewrite openDocs_exec. by apply quiet_log.
  - by apply quiet_log.
Qed.

Lemma createProject_resume_quiet answer s :
  quiet s (exec (createProjectCommand_resume answer) s).
Proof.
  rewrite createProject_resume_exec.
  destruct (truthy (of_answer answer)); [|apply quiet_refl].
  repeat split; try done. eexists; split; [done|].
  split; [|done].
  by rewrite !count_cons, is_welcome_no_items.
Qed.

Lemma dispatch_quiet id s : quiet s (exec (dispatch id) s).
Proof.
  unfold exec, dispatch. destruct (commands s !! id) as [h|].
  - apply run_handler_quiet.
  - apply quiet_refl.
Qed.

Lemma executeCommand_exec id s :
  exec (commands_executeCommand id) s
  = exec (dispatch id) (log [ExecuteCommand id] s).
Proof. reflexivity. Qed.

Lemma executeCommand_quiet id s :
  quiet s (exec (commands_executeCommand id) s).
Proof.
  rewrite executeCommand_exec.
  apply (quiet_trans _ (log [ExecuteCommand id] s));
    [by apply quiet_log | apply dispatch_quiet].
Qed.

Lemma welcome_then_quiet selection s :
  quiet s (exec (welcome_then selection) s).
Proof.
  unfold welcome_then. repeat case_decide.
  - apply executeCommand_quiet.
  - apply executeCommand_quiet.
  - apply quiet_refl.
Qed.

Lemma listener_events_quiet event s :
  count is_welcome (listener_events event s) = 0
  ∧ count is_update (listener_events event s) = 0.
Proof. unfold listener_events. by destruct (affectsConfiguration _ _). Qed.

Lemma deliver_quiet ls event s : quiet s (exec (deliver ls event) s).
Proof.
  rewrite deliver_exec.
  destruct (listener_events_quiet event s) as [Hw Hu].
  apply quiet_log; induction ls as [|l ls IH]; simpl; try done.
  - rewrite count_app. lia.
  - rewrite count_app. lia.
Qed.

Lemma call_quiet c s : c ≠ CallActivate → quiet s (exec (call c) s).
Proof.
  destruct c; intros Hc; simpl; try done.
  - rewrite deactivate_exec. by apply quiet_log.
  - apply dispatch_quiet.
  - apply createProject_resume_quiet.
  - apply welcome_then_quiet.
  - apply deliver_quiet.
Qed.

(** ** The welcome flag *)

Lemma flag_is_true_shown s : flag_is_true s → hasShownWelcome s = true.
Proof.
  unfold flag_is_true, hasShownWelcome, memento_get. by intros ->.
Qed.

Lemma flag_reads_false_shown s :
  flag_typed s → (hasShownWelcome s = false ↔ flag_reads_false s).
Proof.
  unfold flag_typed, flag_reads_false, hasShownWelcome, memento_get.
  intros [-> | [[] ->]]; simpl; split; try done; auto.
  - intros [? | ?]; done.
Qed.

Lemma count_registration_events p s :
  (∀ e, p e = true → is_information e = true ∨ is_update e = true) →
  count p (registration_events s) = 0.
Proof.
  intros Hp. unfold registration_events.
  repeat (rewrite count_cons;
          match goal with
          | |- context [if p ?e then _ else _] =>
              let He := fresh "He" in
              destruct (p e) eqn:He;
              [by destruct (Hp _ He) as [? | ?] | clear He]
          end).
  done.
Qed.

Lemma is_welcome_information e : is_welcome e = true → is_information e = true.
Proof.
  unfold is_welcome. intros ->%bool_decide_eq_true. done.
Qed.

Lemma count_welcome_events :
  count is_welcome welcome_events = 1 ∧ count is_update welcome_events = 1.
Proof.
  unfold welcome_events. rewrite !count_cons, !count_nil. split; [|done].
  unfold is_welcome. rewrite bool_decide_eq_true_2 by done.
  rewrite bool_decide_eq_false_2 by done. done.
Qed.

(** What one activation adds to the trace: the registrations, and the
    welcome notification with the write of the flag exactly when
    [hasShownWelcome] is falsy. *)
Lemma emitted_activate s :
  emitted activate s
  = registration_events s ++ (if hasShownWelcome s then [] else welcome_events).
Proof. eapply emitted_log; [done | apply activate_trace]. Qed.

Lemma activate_welcome_count s :
  count is_welcome (emitted activate s) = if hasShownWelcome s then 0 else 1.
Proof.
  rewrite emitted_activate, count_app, count_registration_events.
  - destruct (hasShownWelcome s); [done | apply count_welcome_events].
  - intros e He. left. by apply is_welcome_information.
Qed.

Lemma activate_flag_shown s : hasShownWelcome (exec activate s) = true.
Proof.
  unfold hasShownWelcome at 1. rewrite activate_globalState.
  destruct (hasShownWelcome s) eqn:Hs; [done|].
  unfold memento_get. by rewrite lookup_insert_eq.
Qed.

Lemma call_globalState c s :
  globalState (exec (call c) s) = globalState s
  ∨ (c = CallActivate ∧ hasShownWelcome s = false
     ∧ globalState (exec (call c) s)
       = <[hasShownWelcome_key := JBool true]> (globalState s)).
Proof.
  destruct c;
    [| left; match goal with
             | |- context [call ?c] =>
                 by destruct (call_quiet c s ltac:(done)) as (? & _)
             end ..].
  simpl. rewrite activate_globalState.
  destruct (hasShownWelcome s); auto.
Qed.

Lemma call_flag_shown c s :
  hasShownWelcome s = true → hasShownWelcome (exec (call c) s) = true.
Proof.
  intros Hs. destruct (call_globalState c s) as [Hg | (_ & Hf & _)].
  - unfold hasShownWelcome in *. by rewrite Hg.
  - congruence.
Qed.

Lemma call_flag_is_true c s :
  flag_is_true s → flag_is_true (exec (call c) s).
Proof.
  intros Hs. destruct (call_globalState c s) as [Hg | (_ & Hf & _)].
  - unfold flag_is_true in *. by rewrite Hg.
  - apply flag_is_true_shown in Hs. congruence.
Qed.

Lemma call_welcome_count c s :
  hasShownWelcome s = true →
  count is_welcome (trace (exec (call c) s)) = count is_welcome (trace s).
Proof.
  intros Hs.
  destruct c;
    [| match goal with
       | |- context [call ?c] =>
           destruct (call_quiet c s ltac:(done))
             as (_ & _ & _ & _ & _ & _ & es & -> & Hw & _);
           rewrite count_app; lia
       end ..].
  simpl. rewrite activate_trace, Hs, !count_app, count_registration_events.
  - rewrite count_nil. lia.
  - intros e He. left. by apply is_welcome_information.
Qed.

Lemma run_snoc cs c s : run (cs ++ [c]) s = exec (call c) (run cs s).
Proof. unfold run. by rewrite foldl_snoc. Qed.

Lemma run_cons c cs s : run (c :: cs) s = run cs (exec (call c) s).
Proof. reflexivity. Qed.

Lemma run_flag_shown cs s :
  hasShownWelcome s = true → hasShownWelcome (run cs s) = true.
Proof.
  revert s. induction cs as [|c cs IH]; intros s Hs; [done|].
  rewrite run_cons. by apply IH, call_flag_shown.
Qed.

Lemma run_flag_is_true cs s : flag_is_true s → flag_is_true (run cs s).
Proof.
  revert s. induction cs as [|c cs IH]; intros s Hs; [done|].
  rewrite run_cons. by apply IH, call_flag_is_true.
Qed.

Lemma run_welcome_count cs s :
  hasShownWelcome s = true →
  count is_welcome (trace (run cs s)) = count is_welcome (trace s).
Proof.
  revert s. induction cs as [|c cs IH]; intros s Hs; [done|].
  rewrite run_cons, IH by by apply call_flag_shown.
  by apply call_welcome_count.
Qed.

Lemma activate_registers s :
  commands (exec activate s) !! "swan.helloWorld" = Some HelloWorld
  ∧ commands (exec activate s) !! "swan.openDocs" = Some OpenDocs
  ∧ commands (exec activate s) !! "swan.createProject" = Some CreateProject.
Proof.
  rewrite activate_commands. repeat split.
  - rewrite !lookup_insert_ne by done. apply lookup_insert_eq.
  - rewrite lookup_insert_ne by done. apply lookup_insert_eq.
  - apply lookup_insert_eq.
Qed.

Lemma dispatch_registered id h s :
  commands s !! id = Some h →
  exec (dispatch id) s = exec (run_handler h) s.
Proof. unfold exec, dispatch. by intros ->. Qed.

(** * The claims *)

(** C4. The greeting command: from every state, running the handler
    registered as [swan.helloWorld] appends exactly one event to the
    trace, the informational notification with the fixed text
    "Hello World from Swan!" and no choices, and leaves every other
    component of the host as it was; the same holds when the host
    dispatches the command after an activation. *)
Theorem helloWorld_one_greeting (s : Host) :
  exec helloWorldCommand_handler s
  = log [ShowInformationMessage "Hello World from Swan!" []] s
  ∧ emitted helloWorldCommand_handler s
    = [ShowInformationMessage "Hello World from Swan!" []]
  ∧ count is_information (emitted helloWorldCommand_handler s) = 1
  ∧ exec (call (CallCommand "swan.helloWorld")) (exec activate s)
    = log [ShowInformationMessage "Hello World from Swan!" []]
          (exec activate s).
Proof.
  assert (emitted helloWorldCommand_handler s
          = [ShowInformationMessage "Hello World from Swan!" []]) as He
    by (eapply emitted_log; [apply helloWorld_exec | done]).
  repeat split; [done | by rewrite He |].
  simpl. destruct (activate_registers s) as (Hh & _).
  by rewrite (dispatch_registered _ _ _ Hh).
Qed.

(** C5. The docs command: from every state, running the handler
    registered as [swan.openDocs] appends exactly one event to the trace,
    the external-open request for the fixed documentation URL, and leaves
    every other component of the host as it was; the same holds when the
    host dispatches the command after an activation. *)
Theorem openDocs_one_external_open (s : Host) :
  exec openDocsCommand_handler s
  = log [OpenExternal (Uri_parse "https://your-swan-docs-url.com")] s
  ∧ emitted openDocsCommand_handler s
    = [OpenExternal {| uri_text := "https://your-swan-docs-url.com" |}]
  ∧ count is_openExternal (emitted openDocsCommand_handler s) = 1
  ∧ exec (call (CallCommand "swan.openDocs")) (exec activate s)
    = log [OpenExternal (Uri_parse "https://your-swan-docs-url.com")]
          (exec activate s).
Proof.
  assert (emitted openDocsCommand_handler s
          = [OpenExternal {| uri_text := "https://your-swan-docs-url.com" |}])
    as He by (eapply emitted_log; [apply openDocs_exec | done]).
  repeat split; [done | by rewrite He |].
  simpl. destruct (activate_registers s) as (_ & Hd & _).
  by rewrite (dispatch_registered _ _ _ Hd).
Qed.

(** C9. [deactivate] is a computation of type [M unit] with no argument;
    from every state it appends exactly one event to the trace, a console
    line, and leaves the memento, the subscription list, the command
    registry, the listeners, the status-bar items, the terminals and the
    settings as they were. *)
Theorem deactivate_only_traces (s : Host) :
  exec deactivate s
  = log [ConsoleLog "Swan VS Code Extension is now deactivated"] s
  ∧ emitted deactivate s
    = [ConsoleLog "Swan VS Code Extension is now deactivated"]
  ∧ count is_consoleLog (emitted deactivate s) = 1
  ∧ globalState (exec deactivate s) = globalState s
  ∧ subscriptions (exec deactivate s) = subscriptions s
  ∧ commands (exec deactivate s) = commands s
  ∧ configListeners (exec deactivate s) = configListeners s
  ∧ statusBarItems (exec deactivate s) = statusBarItems s
  ∧ terminals (exec deactivate s) = terminals s
  ∧ configuration (exec deactivate s) = configuration s.
Proof.
  assert (emitted deactivate s
          = [ConsoleLog "Swan VS Code Extension is now deactivated"]) as He
    by (eapply emitted_log; [apply deactivate_exec | done]).
  repeat split; try done. by rewrite He.
Qed.

Lemma emitted_createProject answer s :
  emitted (createProjectCommand_handler answer) s
  = if truthy (of_answer answer) then
      [ShowInputBox {| prompt := Some "Enter project name";
                       placeHolder := Some "my-swan-project" |};
       CreateTerminal "Swan Project Setup" (terminals s);
       TerminalSendText (terminals s)
         ("pnpm create swan-app " +:+ template (of_answer answer));
       TerminalShow (terminals s);
       ShowInformationMessage
         ("Creating Swan project: " +:+ template (of_answer answer)) []]
    else
      [ShowInputBox {| prompt := Some "Enter project name";
                       placeHolder := Some "my-swan-project" |}].
Proof.
  eapply emitted_log; [apply createProject_exec|].
  by destruct (truthy (of_answer answer)).
Qed.

(** C10. For every non-empty project name [N], the create-project handler
    makes exactly these calls, in this order: the input box, the creation
    of a terminal, one [sendText] to that terminal whose text is
    "pnpm create swan-app " followed by [N] itself, the reveal of the
    terminal, and the confirmation.  [N] is an arbitrary string: nothing
    is quoted, escaped, trimmed or rejected. *)
Theorem createProject_sends_name_verbatim (N : string) (s : Host) :
  N ≠ "" →
  emitted (createProjectCommand_handler (Some N)) s
  = [ShowInputBox {| prompt := Some "Enter project name";
                     placeHolder := Some "my-swan-project" |};
     CreateTerminal "Swan Project Setup" (terminals s);
     TerminalSendText (terminals s) ("pnpm create swan-app " +:+ N);
     TerminalShow (terminals s);
     ShowInformationMessage ("Creating Swan project: " +:+ N) []].
Proof.
  intros HN. rewrite emitted_createProject. simpl. by case_decide.
Qed.

Lemma createProject_sends_name_verbatim_witness :
  emitted (createProjectCommand_handler (Some " x y; rm -rf ~ && $(id) ")) fresh_install
  = [ShowInputBox {| prompt := Some "Enter project name";
                     placeHolder := Some "my-swan-project" |};
     CreateTerminal "Swan Project Setup" 0;
     TerminalSendText 0 "pnpm create swan-app  x y; rm -rf ~ && $(id) ";
     TerminalShow 0;
     ShowInformationMessage "Creating Swan project:  x y; rm -rf ~ && $(id) " []].
Proof.
  apply (createProject_sends_name_verbatim " x y; rm -rf ~ && $(id) " fresh_install).
  discriminate.
Defined.

(** C2. The create-project handler, for an answer of the input box and
    from every state.  With a non-empty name [N]: one terminal is created,
    one [sendText] call is made, to that terminal, with a text that
    contains [N]; the terminal is revealed once; one notification is
    shown, the confirmation.  With the box dismissed or accepted empty:
    no terminal, no [sendText], no notification; the handler returns
    normally having only opened the input box. *)
Theorem createProject_effects (answer : option string) (s : Host) :
  let es := emitted (createProjectCommand_handler answer) s in
  (∀ N, answer = Some N → N ≠ "" →
     count is_createTerminal es = 1
     ∧ CreateTerminal "Swan Project Setup" (terminals s) ∈ es
     ∧ terminals (exec (createProjectCommand_handler answer) s)
       = S (terminals s)
     ∧ count is_sendText es = 1
     ∧ (∀ t line, TerminalSendText t line ∈ es →
          t = terminals s ∧ contains line N)
     ∧ count is_terminalShow es = 1
     ∧ TerminalShow (terminals s) ∈ es
     ∧ count is_information es = 1
     ∧ ShowInformationMessage ("Creating Swan project: " +:+ N) [] ∈ es)
  ∧ (answer = None ∨ answer = Some "" →
     count is_createTerminal es = 0
     ∧ count is_sendText es = 0
     ∧ count is_terminalShow es = 0
     ∧ count is_information es = 0
     ∧ exec (createProjectCommand_handler answer) s
       = log [ShowInputBox {| prompt := Some "Enter project name";
                              placeHolder := Some "my-swan-project" |}] s).
Proof.
  intros es. subst es. rewrite emitted_createProject, createProject_exec.
  split.
  - intros N -> HN. simpl. case_decide; [done|]. simpl.
    split_and!; [done | set_solver | done | done | | done | set_solver
                | done | set_solver].
    intros t line Hin. apply list_elem_of_In in Hin. simpl in Hin.
    destruct Hin as [? | [? | [He | [? | [? | []]]]]]; try congruence.
    injection He as <- <-. split; [done | apply contains_suffix].
  - intros [-> | ->]; simpl; done.
Qed.

Lemma createProject_effects_witness :
  (let es := emitted (createProjectCommand_handler (Some "my-app")) fresh_install in
   count is_createTerminal es = 1
   ∧ CreateTerminal "Swan Project Setup" 0 ∈ es
   ∧ terminals (exec (createProjectCommand_handler (Some "my-app")) fresh_install) = 1
   ∧ count is_sendText es = 1
   ∧ (∀ t line, TerminalSendText t line ∈ es → t = 0 ∧ contains line "my-app")
   ∧ count is_terminalShow es = 1
   ∧ TerminalShow 0 ∈ es
   ∧ count is_information es = 1
   ∧ ShowInformationMessage "Creating Swan project: my-app" [] ∈ es)
  ∧ (let es := emitted (createProjectCommand_handler None) fresh_install in
     count is_createTerminal es = 0
     ∧ count is_sendText es = 0
     ∧ count is_terminalShow es = 0
     ∧ count is_information es = 0
     ∧ exec (createProjectCommand_handler None) fresh_install
       = log [ShowInputBox {| prompt := Some "Enter project name";
                              placeHolder := Some "my-swan-project" |}]
             fresh_install).
Proof.
  split.
  - apply (proj1 (createProject_effects (Some "my-app") fresh_install) "my-app");
      [reflexivity | discriminate].
  - apply (proj2 (createProject_effects None fresh_install)).
    left; reflexivity.
Defined.

Lemma next_item_fresh s : statusBarItems s !! next_item s = None.
Proof. apply not_elem_of_dom. unfold next_item. apply is_fresh. Qed.

Lemma emitted_unchanged {A} (m : M A) s : exec m s = s → emitted m s = [].
Proof. intros Hs. unfold emitted. rewrite Hs. apply drop_all. Qed.

Lemma join_const_singleton {A B} (x : A) (ls : list B) :
  mjoin (map (λ _, [x]) ls) = replicate (length ls) x.
Proof. induction ls as [|b ls IH]; simpl; [done | by rewrite IH]. Qed.

Lemma join_const_nil {A B} (ls : list B) :
  mjoin (map (λ _, @nil A) ls) = [].
Proof. induction ls as [|b ls IH]; simpl; done. Qed.

Lemma log_empty s : log [] s = s.
Proof. unfold log. rewrite app_nil_r. by destruct s. Qed.

(** A configuration change delivered by the host reaches every registered
    listener; each one adds what [listener_events] says. *)
Lemma configurationChanged_exec event s :
  exec (call (CallConfigurationChanged event)) s
  = log (mjoin (map (λ _, listener_events event s) (configListeners s))) s.
Proof.
  pose proof (deliver_exec (configListeners s) event s) as Hd.
  unfold exec in *. simpl. by rewrite Hd.
Qed.

(** C6. The configuration listener.  [activate] registers it with
    [onDidChangeConfiguration], and the host delivers a configuration
    change to every registered listener.  For every event and every
    state: if the event does not affect the [swan] section, the listener
    returns the state as it found it and the delivery traces nothing; if
    it does, the listener appends exactly one console line and changes
    nothing else, so the delivery traces that line once per registered
    listener, and exactly once after an activation on a host that had no
    listener.  The line is "Swan log level changed to: " followed by the
    string conversion of the value that
    [getConfiguration("swan").get("logLevel")] returns, which is the
    current value of the setting [swan.logLevel], or [undefined] when it
    has none. *)
Theorem configuration_listener_traces (event : ConfigurationChangeEvent) (s : Host) :
  let logLevel :=
    config_get {| cfg_section := "swan"; cfg_values := configuration s |}
               "logLevel" in
  let line := "Swan log level changed to: " +:+ template logLevel in
  logLevel = default JUndefined (configuration s !! "swan.logLevel")
  ∧ configListeners (exec activate s) = configListeners s ++ [SwanConfigListener]
  ∧ OnDidChangeConfiguration SwanConfigListener (length (configListeners s))
      ∈ emitted activate s
  ∧ (affectsConfiguration event "swan" = false →
       exec (configuration_listener event) s = s
       ∧ emitted (configuration_listener event) s = []
       ∧ exec (run_listener SwanConfigListener event) s = s
       ∧ exec (call (CallConfigurationChanged event)) s = s
       ∧ exec (call (CallConfigurationChanged event)) (exec activate s)
         = exec activate s)
  ∧ (affectsConfiguration event "swan" = true →
       exec (configuration_listener event) s = log [ConsoleLog line] s
       ∧ emitted (configuration_listener event) s = [ConsoleLog line]
       ∧ count is_consoleLog (emitted (configuration_listener event) s) = 1
       ∧ contains line (template logLevel)
       ∧ exec (run_listener SwanConfigListener event) s = log [ConsoleLog line] s
       ∧ exec (call (CallConfigurationChanged event)) s
         = log (replicate (length (configListeners s)) (ConsoleLog line)) s
       ∧ (configListeners s = [] →
          exec (call (CallConfigurationChanged event)) (exec activate s)
          = log [ConsoleLog line] (exec activate s)
          ∧ emitted (call (CallConfigurationChanged event)) (exec activate s)
            = [ConsoleLog line])).
Proof.
  intros logLevel line. split; [done|].
  split; [apply activate_configListeners|].
  split.
  { rewrite emitted_activate. unfold registration_events.
    apply elem_of_app. left. rewrite !elem_of_cons. auto 10. }
  pose proof (listener_exec event s) as He. unfold listener_events in He.
  split; intros Ha; rewrite Ha in He.
  - assert (exec (configuration_listener event) s = s) as Hs.
    { unfold configuration_listener, exec. by rewrite Ha. }
    split_and!; [done | by apply emitted_unchanged | done | |].
    + rewrite configurationChanged_exec. unfold listener_events. rewrite Ha.
      by rewrite join_const_nil, log_empty.
    + rewrite configurationChanged_exec. unfold listener_events. rewrite Ha.
      by rewrite join_const_nil, log_empty.
  - assert (emitted (configuration_listener event) s = [ConsoleLog line])
      as Hem by (eapply emitted_log; [apply He | done]).
    split_and!; [done | done | by rewrite Hem | apply contains_suffix | done | |].
    + rewrite configurationChanged_exec. unfold listener_events. rewrite Ha.
      by rewrite join_const_singleton.
    + intros Hnone.
      assert (exec (call (CallConfigurationChanged event)) (exec activate s)
              = log [ConsoleLog line] (exec activate s)) as Hex.
      { rewrite configurationChanged_exec. unfold listener_events.
        rewrite Ha, join_const_singleton, activate_configListeners, Hnone.
        by rewrite activate_configuration. }
      split; [done|]. by eapply emitted_log.
Qed.

Lemma configuration_listener_traces_witness :
  let s := {| globalState := ∅; subscriptions := []; commands := ∅;
              configListeners := []; statusBarItems := ∅;
              terminals := 0;
              configuration := {[ "swan.logLevel" := JStr "debug" ]};
              trace := [] |} in
  let editor := {| affectsConfiguration := λ section, bool_decide (section = "editor") |} in
  let swan := {| affectsConfiguration := λ section, bool_decide (section = "swan") |} in
  exec (call (CallConfigurationChanged editor)) (exec activate s) = exec activate s
  ∧ emitted (call (CallConfigurationChanged swan)) (exec activate s)
    = [ConsoleLog "Swan log level changed to: debug"].
Proof.
  intros s editor swan. split.
  - destruct (configuration_listener_traces editor s) as (_ & _ & _ & Hf & _).
    apply Hf. reflexivity.
  - destruct (configuration_listener_traces swan s) as (_ & _ & _ & _ & Ht).
    destruct (Ht eq_refl) as (_ & _ & _ & _ & _ & _ & Hone).
    apply Hone. reflexivity.
Defined.

(** C7. [activate] appends to [context.subscriptions] exactly four
    disposables, in this order: the registrations of [swan.helloWorld],
    [swan.openDocs] and [swan.createProject] and the status-bar item, all
    four made by this activation.  The disposable of the configuration
    listener, which the same activation registers, is not among them; so
    on a context whose list starts empty the list ends as exactly those
    four and holds no listener disposable at all. *)
Theorem activate_subscriptions_exact (s : Host) :
  let four := [DCommand "swan.helloWorld"; DCommand "swan.openDocs";
               DCommand "swan.createProject"; DStatusBarItem (next_item s)] in
  subscriptions (exec activate s) = subscriptions s ++ four
  ∧ (RegisterCommand "swan.helloWorld" HelloWorld ∈ emitted activate s
     ∧ RegisterCommand "swan.openDocs" OpenDocs ∈ emitted activate s
     ∧ RegisterCommand "swan.createProject" CreateProject ∈ emitted activate s
     ∧ CreateStatusBarItem AlignRight 100 (next_item s) ∈ emitted activate s
     ∧ statusBarItems s !! next_item s = None
     ∧ is_Some (statusBarItems (exec activate s) !! next_item s))
  ∧ (OnDidChangeConfiguration SwanConfigListener (length (configListeners s))
       ∈ emitted activate s
     ∧ configListeners (exec activate s) !! length (configListeners s)
       = Some SwanConfigListener
     ∧ (workspace_onDidChangeConfiguration SwanConfigListener s).1
       = listener_disposable s
     ∧ listener_disposable s ∉ four)
  ∧ (subscriptions s = [] →
       subscriptions (exec activate s) = four
       ∧ ∀ slot, DListener slot ∉ subscriptions (exec activate s)).
Proof.
  intros four. rewrite activate_subscriptions, emitted_activate,
    activate_statusBarItems, activate_configListeners.
  unfold registration_events, pushed, listener_disposable.
  split_and!; try done.
  - set_solver.
  - set_solver.
  - set_solver.
  - set_solver.
  - apply next_item_fresh.
  - by rewrite lookup_insert_eq.
  - set_solver.
  - by rewrite lookup_app_r, Nat.sub_diag.
  - subst four. rewrite !not_elem_of_cons.
    split_and!; [done .. | apply not_elem_of_nil].
  - intros ->. split; [done|]. intros slot. subst four. simpl.
    rewrite !not_elem_of_cons.
    split_and!; [done .. | apply not_elem_of_nil].
Qed.

Lemma activate_subscriptions_exact_witness :
  subscriptions (exec activate fresh_install)
  = [DCommand "swan.helloWorld"; DCommand "swan.openDocs";
     DCommand "swan.createProject"; DStatusBarItem (next_item fresh_install)]
  ∧ ∀ slot, DListener slot ∉ subscriptions (exec activate fresh_install).
Proof.
  apply (activate_subscriptions_exact fresh_install). reflexivity.
Defined.

(** A live status-bar item is left alone by every entry point: the quiet
    ones do not touch the items, and [activate] writes only to the fresh
    handle of the item it creates. *)
Lemma call_keeps_item c s (j : nat) (x : StatusBarItem) :
  statusBarItems s !! j = Some x →
  statusBarItems (exec (call c) s) !! j = Some x.
Proof.
  intros Hj.
  destruct c;
    [| match goal with
       | |- context [call ?c] =>
           destruct (call_quiet c s ltac:(done)) as (_ & _ & _ & _ & -> & _);
           done
       end ..].
  simpl. rewrite activate_statusBarItems, lookup_insert_ne; [done|].
  intros Heq. rewrite <- Heq, next_item_fresh in Hj. done.
Qed.

Lemma run_keeps_item cs s (j : nat) (x : StatusBarItem) :
  statusBarItems s !! j = Some x → statusBarItems (run cs s) !! j = Some x.
Proof.
  revert s. induction cs as [|c cs IH]; intros s Hj; [done|].
  rewrite run_cons. by apply IH, call_keeps_item.
Qed.

(** C8. One activation creates exactly one status-bar item, under a handle
    no live item had: right-aligned with priority 100, labelled, with its
    tooltip, bound to [swan.helloWorld] and visible when [activate]
    returns; no other item changes.  After that, whatever sequence of
    entry points of the extension runs (commands, the welcome
    continuation, configuration changes, [deactivate], further
    activations), the item keeps exactly those fields and stays visible. *)
Theorem statusBarItem_created_once_and_frozen (s : Host) :
  let item := next_item s in
  let created :=
    {| alignment := AlignRight; priority := 100; text := "$(rocket) Swan";
       tooltip := Some "Swan Development Tools";
       command := Some "swan.helloWorld"; visible := true |} in
  statusBarItems s !! item = None
  ∧ count is_createStatusBarItem (emitted activate s) = 1
  ∧ CreateStatusBarItem AlignRight 100 item ∈ emitted activate s
  ∧ StatusBarItemShow item ∈ emitted activate s
  ∧ statusBarItems (exec activate s) = <[item := created]> (statusBarItems s)
  ∧ (∀ cs, statusBarItems (run cs (exec activate s)) !! item = Some created).
Proof.
  intros item created. split_and!.
  - apply next_item_fresh.
  - rewrite emitted_activate, count_app. unfold registration_events.
    rewrite !count_cons, count_nil. simpl.
    destruct (hasShownWelcome s); done.
  - rewrite emitted_activate. unfold registration_events.
    apply elem_of_app. left. rewrite !elem_of_cons. auto 10.
  - rewrite emitted_activate. unfold registration_events.
    apply elem_of_app. left. rewrite !elem_of_cons. auto 10.
  - apply activate_statusBarItems.
  - intros cs. apply run_keeps_item.
    rewrite activate_statusBarItems. apply lookup_insert_eq.
Qed.

Lemma count_zero_not_in p es e : count p es = 0 → e ∈ es → p e = false.
Proof.
  induction es as [|e' es IH]; intros Hc Hin.
  - by apply elem_of_nil in Hin.
  - rewrite count_cons in Hc. apply elem_of_cons in Hin as [-> | Hin].
    + destruct (p e'); [lia | done].
    + apply IH; [lia | done].
Qed.

(** Every write to the memento that an entry point makes is the write of
    [true] to the welcome flag. *)
Lemma call_updates c s key v :
  GlobalStateUpdate key v ∈ emitted (call c) s →
  key = hasShownWelcome_key ∧ v = JBool true.
Proof.
  destruct c;
    [| match goal with
       | |- context [call ?c] =>
           destruct (call_quiet c s ltac:(done))
             as (_ & _ & _ & _ & _ & _ & es & Ht & _ & Hu);
           rewrite (emitted_log _ es s _ eq_refl Ht);
           intros Hin; by apply (count_zero_not_in _ _ _ Hu) in Hin
       end ..].
  simpl. rewrite emitted_activate. intros [Hin | Hin]%elem_of_app.
  - assert (count is_update (registration_events s) = 0) as Hu
      by (apply count_registration_events; auto).
    by apply (count_zero_not_in _ _ _ Hu) in Hin.
  - destruct (hasShownWelcome s); [by apply elem_of_nil in Hin|].
    unfold welcome_events in Hin. rewrite !elem_of_cons in Hin.
    destruct Hin as [? | [[= -> ->] | Hin]]; [done | done |].
    by apply elem_of_nil in Hin.
Qed.

Lemma typed_shown_is_true s :
  flag_typed s → hasShownWelcome s = true → flag_is_true s.
Proof.
  unfold flag_typed, hasShownWelcome, memento_get, flag_is_true.
  intros [-> | [[] ->]]; simpl; done.
Qed.

Lemma activate_flag_is_true s : flag_typed s → flag_is_true (exec activate s).
Proof.
  intros Ht. unfold flag_is_true. rewrite activate_globalState.
  destruct (hasShownWelcome s) eqn:Hs.
  - by apply typed_shown_is_true.
  - apply lookup_insert_eq.
Qed.

(** C1. On an installation whose flag is absent or a boolean: [activate]
    shows the welcome notification once if the flag reads false (absent
    or [false]) and not at all otherwise; when it shows it, it writes
    [true] to the flag in the same call, before any answer of the user;
    when [activate] returns the flag is [true], and it is still [true]
    after the continuation of the notification has run, whatever the
    user selected, dismissal included; and in every sequence of entry
    points that follows (activations, deactivations, commands, choices,
    configuration changes) the flag stays [true] and no further welcome
    notification is added to the trace. *)
Theorem welcome_shown_once (s : Host) :
  flag_typed s →
  (flag_reads_false s →
     count is_welcome (emitted activate s) = 1
     ∧ GlobalStateUpdate "swan.hasShownWelcome" (JBool true)
         ∈ emitted activate s)
  ∧ (¬ flag_reads_false s → count is_welcome (emitted activate s) = 0)
  ∧ flag_is_true (exec activate s)
  ∧ (∀ selection,
       flag_is_true (exec (welcome_then selection) (exec activate s)))
  ∧ (∀ cs,
       flag_is_true (run cs (exec activate s))
       ∧ count is_welcome (trace (run cs (exec activate s)))
         = count is_welcome (trace (exec activate s))
       ∧ count is_welcome (emitted activate (run cs (exec activate s))) = 0).
Proof.
  intros Ht. pose proof (flag_reads_false_shown s Ht) as Hf.
  pose proof (activate_flag_is_true s Ht) as Htrue.
  split_and!.
  - intros Hs%Hf. rewrite activate_welcome_count, emitted_activate, Hs.
    split; [done|]. apply elem_of_app. right.
    unfold welcome_events. rewrite !elem_of_cons. auto.
  - intros Hn. rewrite activate_welcome_count.
    destruct (hasShownWelcome s); [done|]. by destruct Hn; apply Hf.
  - done.
  - intros selection.
    by apply (call_flag_is_true (CallWelcomeChoice selection)).
  - intros cs. split_and!.
    + by apply run_flag_is_true.
    + apply run_welcome_count, activate_flag_shown.
    + rewrite activate_welcome_count, run_flag_shown; [done|].
      apply activate_flag_shown.
Qed.

Lemma welcome_shown_once_witness :
  count is_welcome (emitted activate fresh_install) = 1
  ∧ flag_is_true (exec activate fresh_install)
  ∧ count is_welcome
      (trace (run [CallWelcomeChoice None; CallDeactivate; CallActivate;
                   CallDeactivate; CallActivate]
                  (exec activate fresh_install))) = 1.
Proof.
  assert (flag_typed fresh_install) as Ht by (left; apply lookup_empty).
  assert (flag_reads_false fresh_install) as Hf by (left; apply lookup_empty).
  destruct (welcome_shown_once fresh_install Ht) as (H1 & _ & H3 & _ & H5).
  split_and!.
  - apply H1, Hf.
  - apply H3.
  - destruct (H5 [CallWelcomeChoice None; CallDeactivate; CallActivate;
                  CallDeactivate; CallActivate]) as (_ & -> & _).
    vm_compute. reflexivity.
Defined.

(** C3. The flag only ever moves to [true].  Every entry point of the
    extension leaves the memento as it was or stores [true] under
    [swan.hasShownWelcome], and every [globalState.update] call it makes
    is that write; so once the flag is [true] it is [true] after every
    sequence of entry points.  Writing [true] twice leaves the memento
    as writing it once does, with the flag [true], and no sequence of
    entry points that follows adds a welcome notification. *)
Theorem flag_monotone (s : Host) :
  (∀ c, globalState (exec (call c) s) = globalState s
        ∨ globalState (exec (call c) s)
          = <["swan.hasShownWelcome" := JBool true]> (globalState s))
  ∧ (∀ c key v, GlobalStateUpdate key v ∈ emitted (call c) s →
                key = "swan.hasShownWelcome" ∧ v = JBool true)
  ∧ (flag_is_true s → ∀ cs, flag_is_true (run cs s))
  ∧ (let once := exec (globalState_update "swan.hasShownWelcome" (JBool true)) s in
     let twice := exec (globalState_update "swan.hasShownWelcome" (JBool true)
                        >> globalState_update "swan.hasShownWelcome" (JBool true)) s in
     globalState twice = globalState once
     ∧ flag_is_true twice
     ∧ ∀ cs, flag_is_true (run cs twice)
             ∧ count is_welcome (trace (run cs twice))
               = count is_welcome (trace twice)).
Proof.
  split_and!.
  - intros c. destruct (call_globalState c s) as [? | (_ & _ & ?)]; auto.
  - intros c key v. apply call_updates.
  - intros Hs cs. by apply run_flag_is_true.
  - intros once twice.
    assert (globalState twice = globalState once) as Hg
      by (subst once twice; unfold exec, bind; simpl; apply insert_insert_eq).
    assert (flag_is_true twice) as Htrue.
    { unfold flag_is_true. rewrite Hg. apply lookup_insert_eq. }
    split_and!; [done | done |].
    intros cs. split.
    + by apply run_flag_is_true.
    + by apply run_welcome_count, flag_is_true_shown.
Qed.

Lemma flag_monotone_witness :
  flag_is_true
    (run [CallWelcomeChoice (Some "Create Project");
          CallInputBoxAnswer (Some "demo"); CallDeactivate; CallActivate;
          CallCommand "swan.openDocs"]
         (exec activate fresh_install)).
Proof.
  destruct (flag_monotone (exec activate fresh_install)) as (_ & _ & Hm & _).
  apply Hm. vm_compute. reflexivity.
Defined.

(** * Scenarios *)

(** A fresh installation: the first activation shows the welcome
    notification, the user picks "Create Project" and names the project
    [demo]; after a deactivation the second activation registers
    everything again and shows no welcome notification. *)
Example scenario_fresh_install :
  trace (run [CallActivate; CallWelcomeChoice (Some "Create Project");
              CallInputBoxAnswer (Some "demo"); CallDeactivate; CallActivate]
             fresh_install)
  = [ConsoleLog "Swan VS Code Extension is now active!";
     RegisterCommand "swan.helloWorld" HelloWorld;
     RegisterCommand "swan.openDocs" OpenDocs;
     RegisterCommand "swan.createProject" CreateProject;
     CreateStatusBarItem AlignRight 100 0;
     StatusBarItemShow 0;
     OnDidChangeConfiguration SwanConfigListener 0;
     ShowInformationMessage welcome_message ["Open Docs"; "Create Project"];
     GlobalStateUpdate "swan.hasShownWelcome" (JBool true);
     ExecuteCommand "swan.createProject";
     ShowInputBox {| prompt := Some "Enter project name";
                     placeHolder := Some "my-swan-project" |};
     CreateTerminal "Swan Project Setup" 0;
     TerminalSendText 0 "pnpm create swan-app demo";
     TerminalShow 0;
     ShowInformationMessage "Creating Swan project: demo" [];
     ConsoleLog "Swan VS Code Extension is now deactivated";
     ConsoleLog "Swan VS Code Extension is now active!";
     RegisterCommand "swan.helloWorld" HelloWorld;
     RegisterCommand "swan.openDocs" OpenDocs;
     RegisterCommand "swan.createProject" CreateProject;
     CreateStatusBarItem AlignRight 100 1;
     StatusBarItemShow 1;
     OnDidChangeConfiguration SwanConfigListener 1].
Proof. vm_compute. reflexivity. Qed.

(** Dismissing the input box, or accepting it empty, ends the command. *)
Example scenario_cancel :
  emitted (createProjectCommand_handler None) fresh_install
  = emitted (createProjectCommand_handler (Some "")) fresh_install
  ∧ emitted (createProjectCommand_handler (Some "")) fresh_install
    = [ShowInputBox {| prompt := Some "Enter project name";
                       placeHolder := Some "my-swan-project" |}].
Proof. split; vm_compute; reflexivity. Qed.

(** The welcome flag of another type: a stored empty string is falsy, so
    the notification is shown although the flag does not read [false];
    this is why the statements about the flag assume [flag_typed]. *)
Example scenario_untyped_flag :
  let s := exec (globalState_update "swan.hasShownWelcome" (JStr "")) fresh_install in
  count is_welcome (emitted activate s) = 1.
Proof. vm_compute. reflexivity. Qed.

(** * Properties of whole runs *)

Lemma dispatch_trace id s :
  exec (dispatch id) s = log (dispatch_events id s) s.
Proof.
  unfold exec, dispatch, dispatch_events.
  destruct (commands s !! id) as [[]|]; simpl; try done.
  unfold log; simpl. rewrite app_nil_r. by destruct s.
Qed.

Lemma call_trace c s : trace (exec (call c) s) = trace s ++ call_events c s.
Proof.
  destruct c; simpl.
  - apply activate_trace.
  - done.
  - by rewrite dispatch_trace.
  - rewrite createProject_resume_exec. unfold resume_events.
    destruct (truthy _); simpl; [done | by rewrite app_nil_r].
  - unfold welcome_then. repeat case_decide.
    + rewrite executeCommand_exec, dispatch_trace. simpl.
      by rewrite <- app_assoc.
    + rewrite executeCommand_exec, dispatch_trace. simpl.
      by rewrite <- app_assoc.
    + simpl. by rewrite app_nil_r.
  - pose proof (deliver_exec (configListeners s) event s) as Hd.
    unfold exec in Hd. unfold exec. by rewrite Hd.
Qed.

Lemma emitted_call c s : emitted (call c) s = call_events c s.
Proof. eapply emitted_log; [done | apply call_trace]. Qed.

Lemma emitted_run_nil s : emitted_run [] s = [].
Proof. unfold emitted_run. apply drop_all. Qed.

Lemma run_extends cs s : ∃ es, trace (run cs s) = trace s ++ es.
Proof.
  revert s. induction cs as [|c cs IH]; intros s.
  - exists []. by rewrite app_nil_r.
  - destruct (IH (exec (call c) s)) as [es Hes].
    exists (call_events c s ++ es).
    by rewrite run_cons, Hes, call_trace, app_assoc.
Qed.

Lemma run_trace cs s : trace (run cs s) = trace s ++ emitted_run cs s.
Proof.
  destruct (run_extends cs s) as [es Hes]. unfold emitted_run.
  by rewrite Hes, drop_app_length.
Qed.

Lemma emitted_run_cons c cs s :
  emitted_run (c :: cs) s
  = call_events c s ++ emitted_run cs (exec (call c) s).
Proof.
  unfold emitted_run at 1.
  by rewrite run_cons, run_trace, call_trace, <- app_assoc, drop_app_length.
Qed.

(** An event of a run comes from one of its turns. *)
Lemma emitted_run_elem e cs s :
  e ∈ emitted_run cs s →
  ∃ cs1 c cs2, cs = cs1 ++ c :: cs2 ∧ e ∈ call_events c (run cs1 s).
Proof.
  revert s. induction cs as [|c cs IH]; intros s.
  - rewrite emitted_run_nil. by intros ?%elem_of_nil.
  - rewrite emitted_run_cons. intros [Hin | Hin]%elem_of_app.
    + by exists [], c, cs.
    + destruct (IH _ Hin) as (cs1 & c' & cs2 & -> & He).
      by exists (c :: cs1), c', cs2.
Qed.

Lemma activations_cons c cs :
  activations (c :: cs) = (if is_activate c then 1 else 0) + activations cs.
Proof.
  unfold activations. rewrite filter_cons.
  destruct (is_activate c); case_decide; simpl; congruence.
Qed.

Lemma not_activate_quiet c s :
  is_activate c = false → quiet s (exec (call c) s).
Proof. intros Hc. apply call_quiet. by intros ->. Qed.

Lemma quiet_events c s :
  is_activate c = false →
  count is_welcome (call_events c s) = 0 ∧ count is_update (call_events c s) = 0.
Proof.
  intros Hc.
  destruct (not_activate_quiet c s Hc)
    as (_ & _ & _ & _ & _ & _ & es & Ht & Hw & Hu).
  rewrite call_trace in Ht. by apply app_inv_head in Ht as ->.
Qed.

Lemma elem_of_join_const {A B} (l : list A) (ls : list B) (e : A) :
  e ∈ mjoin (map (λ _, l) ls) → e ∈ l.
Proof.
  induction ls as [|b ls IH]; simpl.
  - by intros ?%elem_of_nil.
  - intros [? | ?]%elem_of_app; auto.
Qed.

(** The events of one turn, by cases on the turn. *)
Lemma call_events_cases c s e :
  e ∈ call_events c s →
  (c = CallActivate
   ∧ (e ∈ registration_events s ∨ e ∈ welcome_events))
  ∨ (c = CallDeactivate
     ∧ e = ConsoleLog "Swan VS Code Extension is now deactivated")
  ∨ (∃ id h, (c = CallCommand id
              ∨ (c = CallWelcomeChoice (Some "Open Docs")
                 ∧ id = "swan.openDocs")
              ∨ (c = CallWelcomeChoice (Some "Create Project")
                 ∧ id = "swan.createProject"))
             ∧ commands s !! id = Some h ∧ e ∈ handler_events h)
  ∨ (∃ id, (c = CallWelcomeChoice (Some "Open Docs") ∧ id = "swan.openDocs"
            ∨ c = CallWelcomeChoice (Some "Create Project")
              ∧ id = "swan.createProject")
           ∧ e = ExecuteCommand id)
  ∨ (∃ N, c = CallInputBoxAnswer (Some N) ∧ N ≠ ""
          ∧ e ∈ [CreateTerminal "Swan Project Setup" (terminals s);
                 TerminalSendText (terminals s) ("pnpm create swan-app " +:+ N);
                 TerminalShow (terminals s);
                 ShowInformationMessage ("Creating Swan project: " +:+ N) []])
  ∨ (∃ event, c = CallConfigurationChanged event
              ∧ e ∈ listener_events event s).
Proof.
  destruct c as [| |id|answer|selection|event]; intros He;
    unfold call_events in He.
  - left. split; [done|]. apply elem_of_app in He as [? | He]; [by left|].
    destruct (hasShownWelcome s); [by apply elem_of_nil in He | by right].
  - right; left. split; [done|]. by apply list_elem_of_singleton in He.
  - right; right; left. unfold dispatch_events in He.
    destruct (commands s !! id) as [h|] eqn:Hh; [|by apply elem_of_nil in He].
    exists id, h. auto.
  - do 4 right; left. unfold resume_events in He.
    destruct answer as [N|]; simpl in He; [|by apply elem_of_nil in He].
    case_decide; [by apply elem_of_nil in He|]. by exists N.
  - repeat case_decide; subst.
    + apply elem_of_cons in He as [-> | He].
      * do 3 right; left. exists "swan.openDocs". auto.
      * right; right; left. unfold dispatch_events in He.
        destruct (commands s !! "swan.openDocs") as [h|] eqn:Hh;
          [|by apply elem_of_nil in He].
        exists "swan.openDocs", h. auto.
    + apply elem_of_cons in He as [-> | He].
      * do 3 right; left. exists "swan.createProject". auto.
      * right; right; left. unfold dispatch_events in He.
        destruct (commands s !! "swan.createProject") as [h|] eqn:Hh;
          [|by apply elem_of_nil in He].
        exists "swan.createProject", h. auto.
    + by apply elem_of_nil in He.
  - do 5 right. exists event. split; [done|].
    by apply elem_of_join_const in He.
Qed.

(** In one turn, a [sendText] call is made only by the answer to an input
    box, with a non-empty name, and its text is the scaffold command for
    that name. *)
Lemma call_sendText c s t line :
  TerminalSendText t line ∈ call_events c s →
  ∃ N, N ≠ "" ∧ c = CallInputBoxAnswer (Some N)
       ∧ line = "pnpm create swan-app " +:+ N ∧ t = terminals s.
Proof.
  intros He. apply call_events_cases in He
    as [(_ & [He | He]) | [(_ & He) | [(id & h & _ & _ & He)
       | [(id & _ & He) | [(N & -> & HN & He) | (event & -> & He)]]]]].
  - unfold registration_events in He. elem_cases He.
  - unfold welcome_events in He. elem_cases He.
  - done.
  - destruct h; simpl in He; elem_cases He.
  - done.
  - elem_cases He. injection He as -> ->. by exists N.
  - unfold listener_events in He.
    destruct (affectsConfiguration _ _); elem_cases He.
Qed.

(** X1. Whatever turns run and from whatever state, every text the
    extension sends to a terminal is "pnpm create swan-app " followed by
    a non-empty name that was given as the answer to an input box in
    that run. *)
Theorem sendText_only_scaffold (cs : list Call) (s : Host) (t : nat) (line : string) :
  TerminalSendText t line ∈ emitted_run cs s →
  ∃ N, N ≠ "" ∧ CallInputBoxAnswer (Some N) ∈ cs
       ∧ line = "pnpm create swan-app " +:+ N.
Proof.
  intros (cs1 & c & cs2 & -> & He)%emitted_run_elem.
  apply call_sendText in He as (N & HN & -> & -> & _).
  exists N. split_and!; [done | | done].
  apply elem_of_app. right. apply elem_of_cons. by left.
Qed.

Lemma sendText_only_scaffold_witness :
  ∃ N, N ≠ "" ∧ CallInputBoxAnswer (Some N)
                   ∈ [CallActivate; CallCommand "swan.createProject";
                      CallInputBoxAnswer (Some "demo")]
       ∧ "pnpm create swan-app demo" = "pnpm create swan-app " +:+ N.
Proof.
  apply (sendText_only_scaffold
           [CallActivate; CallCommand "swan.createProject";
            CallInputBoxAnswer (Some "demo")] fresh_install 0).
  vm_compute. apply list_elem_of_In. simpl. auto 20.
Defined.

(** X2. Whatever turns run and from whatever state: every external-open
    request is for the documentation URL, and every notification is the
    greeting, or the welcome notification with its two choices, or the
    confirmation for a non-empty name given as the answer to an input box
    in that run. *)
Theorem notifications_and_links_known (cs : list Call) (s : Host) :
  (∀ u, OpenExternal u ∈ emitted_run cs s →
        u = {| uri_text := "https://your-swan-docs-url.com" |})
  ∧ (∀ m items, ShowInformationMessage m items ∈ emitted_run cs s →
       (m = "Hello World from Swan!" ∧ items = [])
       ∨ (m = welcome_message ∧ items = ["Open Docs"; "Create Project"])
       ∨ (∃ N, N ≠ "" ∧ CallInputBoxAnswer (Some N) ∈ cs
               ∧ m = "Creating Swan project: " +:+ N ∧ items = [])).
Proof.
  split.
  - intros u (cs1 & c & cs2 & -> & He)%emitted_run_elem.
    apply call_events_cases in He
      as [(_ & [He | He]) | [(_ & He) | [(id & h & _ & _ & He)
         | [(id & _ & He) | [(N & -> & HN & He) | (event & -> & He)]]]]].
    + unfold registration_events in He. elem_cases He.
    + unfold welcome_events in He. elem_cases He.
    + done.
    + destruct h; simpl in He; elem_cases He. by injection He as ->.
    + done.
    + elem_cases He.
    + unfold listener_events in He.
      destruct (affectsConfiguration _ _); elem_cases He.
  - intros m items (cs1 & c & cs2 & -> & He)%emitted_run_elem.
    apply call_events_cases in He
      as [(_ & [He | He]) | [(_ & He) | [(id & h & _ & _ & He)
         | [(id & _ & He) | [(N & -> & HN & He) | (event & -> & He)]]]]].
    + unfold registration_events in He. elem_cases He.
    + unfold welcome_events in He. elem_cases He.
      injection He as -> ->. by right; left.
    + done.
    + destruct h; simpl in He; elem_cases He.
      injection He as -> ->. by left.
    + done.
    + elem_cases He. injection He as -> ->. right; right.
      exists N. split_and!; try done.
      apply elem_of_app. right. apply elem_of_cons. by left.
    + unfold listener_events in He.
      destruct (affectsConfiguration _ _); elem_cases He.
Qed.

Lemma notifications_and_links_known_witness :
  {| uri_text := "https://your-swan-docs-url.com" |}
  = {| uri_text := "https://your-swan-docs-url.com" |}
  ∧ (("Creating Swan project: demo" = "Hello World from Swan!"
      ∧ @nil string = [])
     ∨ ("Creating Swan project: demo" = welcome_message
        ∧ [] = ["Open Docs"; "Create Project"])
     ∨ (∃ N, N ≠ ""
             ∧ CallInputBoxAnswer (Some N)
                 ∈ [CallActivate; CallWelcomeChoice (Some "Open Docs");
                    CallInputBoxAnswer (Some "demo")]
             ∧ "Creating Swan project: demo" = "Creating Swan project: " +:+ N
             ∧ @nil string = [])).
Proof.
  destruct (notifications_and_links_known
              [CallActivate; CallWelcomeChoice (Some "Open Docs");
               CallInputBoxAnswer (Some "demo")] fresh_install) as [Hu Hm].
  split.
  - apply Hu. vm_compute. apply list_elem_of_In. simpl. auto 20.
  - apply Hm. vm_compute. apply list_elem_of_In. simpl. auto 20.
Defined.

Lemma call_flag_unchanged c s :
  is_activate c = false →
  hasShownWelcome (exec (call c) s) = hasShownWelcome s.
Proof.
  intros Hc. destruct (not_activate_quiet c s Hc) as (Hg & _).
  unfold hasShownWelcome. by rewrite Hg.
Qed.

(** X3. In every run, from every state, the welcome notification is shown
    at most once and the flag is written at most once: never if the flag
    is already truthy, and otherwise once if the run contains an
    activation and never if it does not. *)
Theorem welcome_and_write_at_most_once (cs : list Call) (s : Host) :
  count is_welcome (emitted_run cs s)
  = (if hasShownWelcome s then 0 else Nat.min 1 (activations cs))
  ∧ count is_update (emitted_run cs s)
    = (if hasShownWelcome s then 0 else Nat.min 1 (activations cs)).
Proof.
  revert s. induction cs as [|c cs IH]; intros s.
  - rewrite emitted_run_nil. by destruct (hasShownWelcome s).
  - rewrite emitted_run_cons, !count_app, activations_cons.
    destruct (IH (exec (call c) s)) as [-> ->].
    destruct (is_activate c) eqn:Hc.
    + destruct c; try done. simpl call.
      rewrite activate_flag_shown. unfold call_events.
      rewrite !count_app. rewrite !count_registration_events.
      * destruct (hasShownWelcome s); [done|].
        destruct count_welcome_events as [-> ->]. done.
      * auto.
      * intros e He. left. by apply is_welcome_information.
    + destruct (quiet_events c s Hc) as [-> ->].
      by rewrite call_flag_unchanged.
Qed.

Lemma run_configuration cs s : configuration (run cs s) = configuration s.
Proof.
  revert s. induction cs as [|c cs IH]; intros s; [done|].
  rewrite run_cons, IH. destruct (is_activate c) eqn:Hc.
  - destruct c; try done. apply activate_configuration.
  - by destruct (not_activate_quiet c s Hc) as (_ & _ & _ & _ & _ & ? & _).
Qed.

(** X4. No run writes the settings, and of the memento no run writes any
    key other than [swan.hasShownWelcome]. *)
Theorem settings_and_other_keys_untouched (cs : list Call) (s : Host) (key : string) :
  configuration (run cs s) = configuration s
  ∧ (key ≠ "swan.hasShownWelcome" →
     globalState (run cs s) !! key = globalState s !! key).
Proof.
  split; [apply run_configuration|]. intros Hne.
  revert s. induction cs as [|c cs IH]; intros s; [done|].
  rewrite run_cons, IH.
  destruct (call_globalState c s) as [-> | (_ & _ & ->)]; [done|].
  by apply lookup_insert_ne.
Qed.

Lemma settings_and_other_keys_untouched_witness :
  let s := exec (globalState_update "other.key" (JStr "kept")) fresh_install in
  globalState (run [CallActivate; CallDeactivate; CallActivate] s) !! "other.key"
  = Some (JStr "kept").
Proof.
  intros s.
  destruct (settings_and_other_keys_untouched
              [CallActivate; CallDeactivate; CallActivate] s "other.key")
    as [_ Hk].
  rewrite Hk by discriminate. vm_compute. reflexivity.
Defined.

Lemma call_configListeners c s :
  configListeners (exec (call c) s)
  = configListeners s ++ (if is_activate c then [SwanConfigListener] else []).
Proof.
  destruct (is_activate c) eqn:Hc.
  - destruct c; try done. apply activate_configListeners.
  - destruct (not_activate_quiet c s Hc) as (_ & _ & _ & -> & _).
    by rewrite app_nil_r.
Qed.

Lemma run_configListeners cs s :
  configListeners (run cs s)
  = configListeners s ++ replicate (activations cs) SwanConfigListener.
Proof.
  revert s. induction cs as [|c cs IH]; intros s.
  - simpl. by rewrite app_nil_r.
  - rewrite run_cons, IH, call_configListeners, activations_cons, <- app_assoc.
    by destruct (is_activate c).
Qed.

(** X5. The extension registers one configuration listener per activation
    and no turn removes one.  So after a run from [s], a configuration
    change that affects [swan] is traced once per listener, that is once
    for each listener [s] had and once more for each activation of the
    run, every line carrying the current log level; a change that does
    not affect [swan] is not traced at all. *)
Theorem configuration_change_traced_per_activation
    (event : ConfigurationChangeEvent) (cs : list Call) (s : Host) :
  configListeners (run cs s)
  = configListeners s ++ replicate (activations cs) SwanConfigListener
  ∧ emitted (call (CallConfigurationChanged event)) (run cs s)
    = if affectsConfiguration event "swan" then
        replicate (length (configListeners s) + activations cs)
          (ConsoleLog ("Swan log level changed to: "
                       +:+ template (default JUndefined
                                       (configuration s !! "swan.logLevel"))))
      else [].
Proof.
  split; [apply run_configListeners|].
  rewrite emitted_call. unfold call_events, listener_events.
  rewrite run_configuration.
  destruct (affectsConfiguration event "swan").
  - rewrite join_const_singleton, run_configListeners, length_app,
      length_replicate. done.
  - apply join_const_nil.
Qed.

Lemma call_registered c s : registered s → registered (exec (call c) s).
Proof.
  intros Hr. destruct (is_activate c) eqn:Hc.
  - destruct c; try done. apply activate_registers.
  - destruct (not_activate_quiet c s Hc) as (_ & _ & Hcmd & _).
    unfold registered. by rewrite Hcmd.
Qed.

Lemma run_registered cs s : registered s → registered (run cs s).
Proof.
  revert s. induction cs as [|c cs IH]; intros s Hr; [done|].
  rewrite run_cons. by apply IH, call_registered.
Qed.

(** X8. The continuation of the welcome notification, run at any time
    after an activation.  On "Open Docs" it executes [swan.openDocs],
    which opens the documentation; on "Create Project" it executes
    [swan.createProject], which opens the input box; on every other
    answer, dismissal included, it does nothing.  The comparison is
    exact: a selection that differs from both labels in any character is
    such an other answer. *)
Theorem welcome_choice_dispatch
    (selection : option string) (cs : list Call) (s : Host) :
  let s' := run cs (exec activate s) in
  emitted (welcome_then (Some "Open Docs")) s'
  = [ExecuteCommand "swan.openDocs";
     OpenExternal (Uri_parse "https://your-swan-docs-url.com")]
  ∧ emitted (welcome_then (Some "Create Project")) s'
    = [ExecuteCommand "swan.createProject";
       ShowInputBox {| prompt := Some "Enter project name";
                       placeHolder := Some "my-swan-project" |}]
  ∧ (selection ≠ Some "Open Docs" → selection ≠ Some "Create Project" →
     exec (welcome_then selection) s' = s').
Proof.
  intros s'.
  assert (registered s') as (Hh & Hd & Hc)
    by apply run_registered, activate_registers.
  split_and!.
  - change (welcome_then (Some "Open Docs"))
      with (call (CallWelcomeChoice (Some "Open Docs"))).
    rewrite emitted_call. unfold call_events, dispatch_events.
    rewrite decide_True by done. by rewrite Hd.
  - change (welcome_then (Some "Create Project"))
      with (call (CallWelcomeChoice (Some "Create Project"))).
    rewrite emitted_call. unfold call_events, dispatch_events.
    rewrite decide_False by done. rewrite decide_True by done. by rewrite Hc.
  - intros H1 H2. unfold welcome_then.
    rewrite decide_False by done. by rewrite decide_False by done.
Qed.

Lemma welcome_choice_dispatch_witness :
  exec (welcome_then None) (run [CallDeactivate] (exec activate fresh_install))
  = run [CallDeactivate] (exec activate fresh_install)
  ∧ exec (welcome_then (Some "open docs"))
         (run [CallDeactivate] (exec activate fresh_install))
    = run [CallDeactivate] (exec activate fresh_install).
Proof.
  split.
  - destruct (welcome_choice_dispatch None [CallDeactivate] fresh_install)
      as (_ & _ & H).
    apply H; discriminate.
  - destruct (welcome_choice_dispatch (Some "open docs") [CallDeactivate]
                fresh_install) as (_ & _ & H).
    apply H; discriminate.
Defined.

Lemma terminal_events_app t1 t2 :
  terminal_events (t1 ++ t2) = terminal_events t1 ++ terminal_events t2.
Proof. unfold terminal_events. apply filter_app. Qed.

Lemma terminal_events_cons e t :
  terminal_events (e :: t)
  = if is_terminal_event e then e :: terminal_events t else terminal_events t.
Proof.
  unfold terminal_events. rewrite filter_cons.
  destruct (is_terminal_event e); case_decide; congruence.
Qed.

Lemma terminal_events_consoleLogs es :
  Forall (λ e, is_consoleLog e = true) es → terminal_events es = [].
Proof.
  induction 1 as [|e es He _ IH]; [done|].
  rewrite terminal_events_cons, IH. by destruct e.
Qed.

Lemma dispatch_events_not_terminal id s :
  terminal_events (dispatch_events id s) = [].
Proof. unfold dispatch_events. by destruct (commands s !! id) as [[]|]. Qed.

Lemma answered_names_cons c cs :
  answered_names (c :: cs) = answered_names [c] ++ answered_names cs.
Proof. unfold answered_names. by rewrite <- omap_app. Qed.

Lemma scaffold_events_app first names1 names2 :
  scaffold_events first (names1 ++ names2)
  = scaffold_events first names1
    ++ scaffold_events (first + length names1) names2.
Proof.
  revert first. induction names1 as [|N names1 IH]; intros first; simpl.
  - by rewrite Nat.add_0_r.
  - rewrite IH. by replace (first + S (length names1))
      with (S first + length names1) by lia.
Qed.

(** The calls on terminals of one turn: the answer of an input box with a
    non-empty name creates the next terminal, sends it the command and
    reveals it; no other turn touches a terminal. *)
Lemma call_terminal_events c s :
  terminal_events (call_events c s)
  = scaffold_events (terminals s) (answered_names [c])
  ∧ terminals (exec (call c) s) = terminals s + length (answered_names [c]).
Proof.
  destruct c as [| |id|answer|selection|event].
  - simpl call. rewrite activate_terminals. unfold call_events.
    rewrite terminal_events_app. unfold registration_events, welcome_events.
    destruct (hasShownWelcome s); rewrite !terminal_events_cons; simpl;
      split; try done; lia.
  - simpl. split; [done | lia].
  - simpl call. rewrite dispatch_trace. unfold call_events.
    rewrite dispatch_events_not_terminal. simpl. split; [done | lia].
  - simpl call. rewrite createProject_resume_exec.
    unfold call_events, resume_events, answered_names.
    destruct answer as [N|]; simpl; [|split; [done | lia]].
    case_decide; simpl; [split; [done | lia]|].
    rewrite !terminal_events_cons. simpl. split; [done | lia].
  - simpl call. unfold welcome_then, call_events. repeat case_decide.
    + rewrite executeCommand_exec, dispatch_trace, terminal_events_cons.
      rewrite dispatch_events_not_terminal. simpl. split; [done | lia].
    + rewrite executeCommand_exec, dispatch_trace, terminal_events_cons.
      rewrite dispatch_events_not_terminal. simpl. split; [done | lia].
    + unfold exec, ret. simpl. split; [done | lia].
  - rewrite configurationChanged_exec. unfold call_events.
    rewrite terminal_events_consoleLogs.
    + simpl. split; [done | lia].
    + apply Forall_forall. intros e He%elem_of_join_const.
      unfold listener_events in He.
      destruct (affectsConfiguration _ _); elem_cases He. by subst.
Qed.

Lemma run_terminal_events cs s :
  terminal_events (emitted_run cs s)
  = scaffold_events (terminals s) (answered_names cs)
  ∧ terminals (run cs s) = terminals s + length (answered_names cs).
Proof.
  revert s. induction cs as [|c cs IH]; intros s.
  - rewrite emitted_run_nil. simpl. split; [done | lia].
  - destruct (IH (exec (call c) s)) as [He Ht].
    destruct (call_terminal_events c s) as [He' Ht'].
    rewrite run_cons, emitted_run_cons, terminal_events_app, answered_names_cons.
    rewrite scaffold_events_app, length_app, He, He', Ht, Ht'.
    split; [done | lia].
Qed.

Lemma sent_to_app t es1 es2 :
  sent_to t (es1 ++ es2) = sent_to t es1 ++ sent_to t es2.
Proof. unfold sent_to. apply omap_app. Qed.

Lemma sent_to_cons t e es : sent_to t (e :: es) = sent_to t [e] ++ sent_to t es.
Proof. by rewrite <- sent_to_app. Qed.

Lemma sent_to_terminal_events t es :
  sent_to t (terminal_events es) = sent_to t es.
Proof.
  induction es as [|e es IH]; [done|].
  rewrite terminal_events_cons, (sent_to_cons t e es), <- IH.
  destruct (is_terminal_event e) eqn:He.
  - apply sent_to_cons.
  - by destruct e.
Qed.

Lemma scaffold_events_cons first N names :
  scaffold_events first (N :: names)
  = [CreateTerminal "Swan Project Setup" first;
     TerminalSendText first ("pnpm create swan-app " +:+ N);
     TerminalShow first]
    ++ scaffold_events (S first) names.
Proof. reflexivity. Qed.

Lemma sent_to_one_terminal t first N :
  sent_to t [CreateTerminal "Swan Project Setup" first;
             TerminalSendText first ("pnpm create swan-app " +:+ N);
             TerminalShow first]
  = if decide (first = t) then ["pnpm create swan-app " +:+ N] else [].
Proof. unfold sent_to. simpl. by case_decide. Qed.

Lemma sent_to_scaffold_older t first names :
  t < first → sent_to t (scaffold_events first names) = [].
Proof.
  revert first. induction names as [|N names IH]; intros first Hlt; [done|].
  rewrite scaffold_events_cons, sent_to_app, IH, sent_to_one_terminal by lia.
  rewrite decide_False by lia. done.
Qed.

Lemma sent_to_scaffold_created first names i N :
  names !! i = Some N →
  sent_to (first + i) (scaffold_events first names)
  = ["pnpm create swan-app " +:+ N].
Proof.
  revert first i. induction names as [|N0 names IH]; intros first i Hi; [done|].
  rewrite scaffold_events_cons, sent_to_app, sent_to_one_terminal.
  destruct i as [|i]; simpl in Hi.
  - injection Hi as ->. rewrite Nat.add_0_r, sent_to_scaffold_older by lia.
    by rewrite decide_True.
  - replace (first + S i) with (S first + i) by lia. rewrite (IH _ _ Hi).
    rewrite decide_False by lia. done.
Qed.

(** X9. Terminals are never reused.  In every run, from every state, the
    calls on terminals are, in order and for each non-empty name answered
    to an input box: the creation of the next new terminal, one
    [sendText] to that same terminal with the command for that name, and
    the reveal of that same terminal.  So the terminal created for the
    [i]-th name receives exactly one text, the command for that name,
    and a terminal the host had before the run receives none. *)
Theorem terminals_never_reused (cs : list Call) (s : Host) :
  let es := emitted_run cs s in
  terminal_events es = scaffold_events (terminals s) (answered_names cs)
  ∧ terminals (run cs s) = terminals s + length (answered_names cs)
  ∧ (∀ i N, answered_names cs !! i = Some N →
       sent_to (terminals s + i) es = ["pnpm create swan-app " +:+ N])
  ∧ (∀ t, t < terminals s → sent_to t es = []).
Proof.
  intros es. subst es. destruct (run_terminal_events cs s) as [He Ht].
  split_and!; [done | done | |].
  - intros i N Hi. rewrite <- sent_to_terminal_events, He.
    by apply sent_to_scaffold_created.
  - intros t Hlt. rewrite <- sent_to_terminal_events, He.
    by apply sent_to_scaffold_older.
Qed.

Lemma terminals_never_reused_witness :
  let cs := [CallActivate; CallCommand "swan.createProject";
             CallInputBoxAnswer (Some "one"); CallInputBoxAnswer None;
             CallCommand "swan.createProject"; CallInputBoxAnswer (Some "two")] in
  let s := exec (createProjectCommand_handler (Some "old")) fresh_install in
  sent_to 1 (emitted_run cs s) = ["pnpm create swan-app one"]
  ∧ sent_to 2 (emitted_run cs s) = ["pnpm create swan-app two"]
  ∧ sent_to 0 (emitted_run cs s) = [].
Proof.
  intros cs s.
  destruct (terminals_never_reused cs s) as (_ & _ & Hnew & Hold).
  split_and!.
  - apply (Hnew 0 "one"). reflexivity.
  - apply (Hnew 1 "two"). reflexivity.
  - apply Hold. vm_compute. lia.
Defined.

Lemma activations_zero_cons c cs :
  activations (c :: cs) = 0 → is_activate c = false ∧ activations cs = 0.
Proof. rewrite activations_cons. destruct (is_activate c); simpl; [lia | done]. Qed.

(** X11. Only [activate] registers anything.  A run without an activation
    leaves the memento, the subscription list, the command registry, the
    configuration listeners, the status-bar items and the settings
    exactly as they were: commands, answers, configuration changes and
    [deactivate] only add to the trace and open terminals. *)
Theorem only_activate_registers (cs : list Call) (s : Host) :
  activations cs = 0 →
  globalState (run cs s) = globalState s
  ∧ subscriptions (run cs s) = subscriptions s
  ∧ commands (run cs s) = commands s
  ∧ configListeners (run cs s) = configListeners s
  ∧ statusBarItems (run cs s) = statusBarItems s
  ∧ configuration (run cs s) = configuration s.
Proof.
  revert s. induction cs as [|c cs IH]; intros s Ha; [done|].
  apply activations_zero_cons in Ha as [Hc Ha]. rewrite run_cons.
  destruct (IH (exec (call c) s) Ha) as (-> & -> & -> & -> & -> & ->).
  by destruct (not_activate_quiet c s Hc) as (? & ? & ? & ? & ? & ? & _).
Qed.

Lemma only_activate_registers_witness :
  let s := exec activate fresh_install in
  let cs := [CallCommand "swan.createProject"; CallInputBoxAnswer (Some "demo");
             CallWelcomeChoice (Some "Open Docs"); CallDeactivate] in
  globalState (run cs s) = globalState s
  ∧ subscriptions (run cs s) = subscriptions s
  ∧ commands (run cs s) = commands s
  ∧ configListeners (run cs s) = configListeners s
  ∧ statusBarItems (run cs s) = statusBarItems s
  ∧ configuration (run cs s) = configuration s.
Proof.
  intros s cs. apply (only_activate_registers cs s). reflexivity.
Defined.

(** * Sessions *)

Lemma session_turn_not_activate c :
  is_session_turn c = true → is_activate c = false.
Proof. by destruct c. Qed.

(** The turns of a session change neither the memento, nor the
    subscription list, nor any registration. *)
Lemma run_session_frame cs s :
  Forall (λ c, is_session_turn c = true) cs →
  globalState (run cs s) = globalState s
  ∧ subscriptions (run cs s) = subscriptions s
  ∧ commands (run cs s) = commands s
  ∧ configListeners (run cs s) = configListeners s
  ∧ statusBarItems (run cs s) = statusBarItems s
  ∧ configuration (run cs s) = configuration s.
Proof.
  intros Hcs. revert s. induction Hcs as [|c cs Hc _ IH]; intros s; [done|].
  rewrite run_cons. destruct (IH (exec (call c) s)) as (-> & -> & -> & -> & -> & ->).
  apply session_turn_not_activate in Hc.
  by destruct (not_activate_quiet c s Hc) as (? & ? & ? & ? & ? & ? & _).
Qed.

(** The host when [deactivate] returns at the end of a session. *)
Lemma session_end cs s :
  Forall (λ c, is_session_turn c = true) cs →
  let s1 := exec deactivate (run cs (exec activate s)) in
  subscriptions s1 = subscriptions s ++ pushed s
  ∧ commands s1
    = <["swan.createProject" := CreateProject]>
        (<["swan.openDocs" := OpenDocs]>
           (<["swan.helloWorld" := HelloWorld]> (commands s)))
  ∧ statusBarItems s1 = <[next_item s := swan_statusBarItem]> (statusBarItems s)
  ∧ configListeners s1 = configListeners s ++ [SwanConfigListener]
  ∧ configuration s1 = configuration s.
Proof.
  intros Hcs s1. subst s1. rewrite deactivate_exec. unfold log; simpl.
  destruct (run_session_frame cs (exec activate s) Hcs)
    as (_ & -> & -> & -> & -> & ->).
  rewrite activate_subscriptions, activate_commands, activate_statusBarItems,
    activate_configListeners, activate_configuration. done.
Qed.

(** A session on a fresh context, with the three ids free at its start,
    leaves the registry, the items and the subscription list as it found
    them; the configuration listener stays. *)
Lemma session_restores cs s :
  Forall (λ c, is_session_turn c = true) cs →
  subscriptions s = [] →
  commands s !! "swan.helloWorld" = None →
  commands s !! "swan.openDocs" = None →
  commands s !! "swan.createProject" = None →
  commands (session cs s) = commands s
  ∧ statusBarItems (session cs s) = statusBarItems s
  ∧ subscriptions (session cs s) = []
  ∧ configListeners (session cs s) = configListeners s ++ [SwanConfigListener]
  ∧ configuration (session cs s) = configuration s.
Proof.
  intros Hcs Hsub Hh Hd Hc.
  destruct (session_end cs s Hcs) as (Hs1 & Hc1 & Hi1 & Hl1 & Hf1).
  unfold session.
  set (s1 := exec deactivate (run cs (exec activate s))) in *. clearbody s1.
  unfold host_unload. rewrite Hs1, Hsub. unfold pushed. simpl.
  rewrite Hc1, Hi1, Hl1, Hf1. split_and!; try done.
  - apply map_eq. intros k. rewrite !lookup_delete, !lookup_insert.
    repeat case_decide; subst; congruence.
  - apply delete_insert_id, next_item_fresh.
Qed.

(** X6. The round trip of one session.  On a fresh context and with the
    three command ids free, after [activate], any turns of the session
    and [deactivate], the subscription list holds exactly the three
    command registrations and the status-bar item; once the host has
    disposed them, the command registry and the status-bar items are
    what they were before the activation.  The configuration listener
    is not on the list, so it survives the release: a later
    configuration change that affects [swan] is still traced, once for
    each listener. *)
Theorem session_disposal_round_trip
    (event : ConfigurationChangeEvent) (cs : list Call) (s : Host) :
  Forall (λ c, is_session_turn c = true) cs →
  subscriptions s = [] →
  commands s !! "swan.helloWorld" = None →
  commands s !! "swan.openDocs" = None →
  commands s !! "swan.createProject" = None →
  let s1 := exec deactivate (run cs (exec activate s)) in
  subscriptions s1
  = [DCommand "swan.helloWorld"; DCommand "swan.openDocs";
     DCommand "swan.createProject"; DStatusBarItem (next_item s)]
  ∧ commands (host_unload s1) = commands s
  ∧ statusBarItems (host_unload s1) = statusBarItems s
  ∧ subscriptions (host_unload s1) = []
  ∧ configListeners (host_unload s1) = configListeners s ++ [SwanConfigListener]
  ∧ (affectsConfiguration event "swan" = true →
     emitted (call (CallConfigurationChanged event)) (host_unload s1)
     = replicate (length (configListeners s) + 1)
         (ConsoleLog ("Swan log level changed to: "
                      +:+ template (default JUndefined
                                      (configuration s !! "swan.logLevel"))))).
Proof.
  intros Hcs Hsub Hh Hd Hc s1.
  destruct (session_end cs s Hcs) as (Hs1 & _).
  destruct (session_restores cs s Hcs Hsub Hh Hd Hc)
    as (Hc2 & Hi2 & Hs2 & Hl2 & Hf2).
  fold s1 in Hs1. unfold session in *. fold s1 in Hc2, Hi2, Hs2, Hl2, Hf2.
  split_and!; try done.
  - by rewrite Hs1, Hsub.
  - intros Ha. rewrite emitted_call. unfold call_events, listener_events.
    rewrite Ha, join_const_singleton, Hl2, Hf2, length_app. done.
Qed.

Lemma session_disposal_round_trip_witness :
  let swan := {| affectsConfiguration := λ section, bool_decide (section = "swan") |} in
  let cs := [CallWelcomeChoice (Some "Create Project");
             CallInputBoxAnswer (Some "demo"); CallCommand "swan.helloWorld"] in
  let s1 := exec deactivate (run cs (exec activate fresh_install)) in
  commands (host_unload s1) = commands fresh_install
  ∧ statusBarItems (host_unload s1) = statusBarItems fresh_install
  ∧ configListeners (host_unload s1) = [SwanConfigListener]
  ∧ emitted (call (CallConfigurationChanged swan)) (host_unload s1)
    = [ConsoleLog "Swan log level changed to: undefined"].
Proof.
  intros swan cs s1.
  assert (Forall (λ c, is_session_turn c = true) cs) as Hcs
    by (repeat constructor).
  destruct (session_disposal_round_trip swan cs fresh_install Hcs eq_refl
              (lookup_empty _) (lookup_empty _) (lookup_empty _))
    as (_ & Hc & Hi & _ & Hl & He).
  split_and!; [exact Hc | exact Hi | exact Hl | exact (He eq_refl)].
Defined.

(** X7. Within a session the commands stay invokable.  After [activate]
    and any turns of the session, the three command ids are bound to
    their handlers: invoking [swan.helloWorld] shows the greeting,
    invoking [swan.openDocs] opens the documentation, and invoking
    [swan.createProject] and answering its input box does what one whole
    invocation of the handler does.  The activation and the session
    change the binding of no other command id. *)
Theorem commands_invokable_in_session
    (cs : list Call) (s : Host) (answer : option string) (id : string) :
  Forall (λ c, is_session_turn c = true) cs →
  let s' := run cs (exec activate s) in
  commands s' !! "swan.helloWorld" = Some HelloWorld
  ∧ commands s' !! "swan.openDocs" = Some OpenDocs
  ∧ commands s' !! "swan.createProject" = Some CreateProject
  ∧ exec (call (CallCommand "swan.helloWorld")) s'
    = log [ShowInformationMessage "Hello World from Swan!" []] s'
  ∧ exec (call (CallCommand "swan.openDocs")) s'
    = log [OpenExternal (Uri_parse "https://your-swan-docs-url.com")] s'
  ∧ run [CallCommand "swan.createProject"; CallInputBoxAnswer answer] s'
    = exec (createProjectCommand_handler answer) s'
  ∧ (id ≠ "swan.helloWorld" → id ≠ "swan.openDocs" →
     id ≠ "swan.createProject" →
     commands s' !! id = commands s !! id).
Proof.
  intros Hcs s'.
  destruct (run_session_frame cs (exec activate s) Hcs) as (_ & _ & Hcmd & _).
  fold s' in Hcmd.
  destruct (activate_registers s) as (Hh & Hd & Hc).
  rewrite <- Hcmd in Hh, Hd, Hc.
  split_and!; try done.
  - simpl. by rewrite (dispatch_registered _ _ _ Hh).
  - simpl. by rewrite (dispatch_registered _ _ _ Hd).
  - unfold run. simpl. by rewrite (dispatch_registered _ _ _ Hc).
  - intros H1 H2 H3. rewrite Hcmd, activate_commands.
    by rewrite !lookup_insert_ne.
Qed.

Lemma commands_invokable_in_session_witness :
  let s := exec (commands_registerCommand "other.command" OpenDocs) fresh_install in
  let s' := run [CallCommand "swan.createProject"; CallInputBoxAnswer None;
                 CallWelcomeChoice (Some "Open Docs")] (exec activate s) in
  exec (call (CallCommand "swan.helloWorld")) s'
  = log [ShowInformationMessage "Hello World from Swan!" []] s'
  ∧ commands s' !! "other.command" = Some OpenDocs.
Proof.
  intros s s'.
  assert (Forall (λ c, is_session_turn c = true)
            [CallCommand "swan.createProject"; CallInputBoxAnswer None;
             CallWelcomeChoice (Some "Open Docs")]) as Hcs
    by (repeat constructor).
  destruct (commands_invokable_in_session _ s None "other.command" Hcs)
    as (_ & _ & _ & Hg & _ & _ & Hid).
  split; [exact Hg|]. subst s'.
  rewrite Hid by discriminate. vm_compute. reflexivity.
Defined.

Lemma lifecycle_cons cs css s :
  lifecycle (cs :: css) s = lifecycle css (session cs s).
Proof. reflexivity. Qed.

(** Complete sessions, one after the other: each one leaves the registry,
    the items and the subscription list as it found them and one more
    configuration listener. *)
Lemma lifecycle_restores css s :
  Forall (Forall (λ c, is_session_turn c = true)) css →
  subscriptions s = [] →
  commands s !! "swan.helloWorld" = None →
  commands s !! "swan.openDocs" = None →
  commands s !! "swan.createProject" = None →
  commands (lifecycle css s) = commands s
  ∧ statusBarItems (lifecycle css s) = statusBarItems s
  ∧ subscriptions (lifecycle css s) = []
  ∧ configListeners (lifecycle css s)
    = configListeners s ++ replicate (length css) SwanConfigListener.
Proof.
  intros Hcss. revert s.
  induction Hcss as [|cs css Hcs _ IH]; intros s Hsub Hh Hd Hc.
  - simpl. by rewrite app_nil_r.
  - destruct (session_restores cs s Hcs Hsub Hh Hd Hc)
      as (Hc1 & Hi1 & Hs1 & Hl1 & _).
    rewrite lifecycle_cons.
    destruct (IH (session cs s)) as (-> & -> & -> & ->);
      [done | by rewrite Hc1 ..|].
    rewrite Hc1, Hi1, Hl1, <- app_assoc. done.
Qed.

(** X10. The status-bar item is a singleton.  Over any number of complete
    sessions (activation, turns, deactivation, release by the host),
    started on a fresh context with the three command ids free: after
    the last release the host has exactly the items it had at the start,
    and during the next session it has exactly one more, right-aligned
    with priority 100, labelled "$(rocket) Swan", bound to
    [swan.helloWorld] and visible.  The configuration listeners are not
    released: there is one more for every session. *)
Theorem statusBarItem_singleton_across_sessions
    (css : list (list Call)) (cs : list Call) (s : Host) :
  Forall (Forall (λ c, is_session_turn c = true)) css →
  Forall (λ c, is_session_turn c = true) cs →
  subscriptions s = [] →
  commands s !! "swan.helloWorld" = None →
  commands s !! "swan.openDocs" = None →
  commands s !! "swan.createProject" = None →
  let s0 := lifecycle css s in
  statusBarItems s0 = statusBarItems s
  ∧ statusBarItems s !! next_item s = None
  ∧ statusBarItems (run cs (exec activate s0))
    = <[next_item s :=
          {| alignment := AlignRight; priority := 100;
             text := "$(rocket) Swan";
             tooltip := Some "Swan Development Tools";
             command := Some "swan.helloWorld"; visible := true |}]>
        (statusBarItems s)
  ∧ statusBarItems (session cs s0) = statusBarItems s
  ∧ configListeners (session cs s0)
    = configListeners s ++ replicate (S (length css)) SwanConfigListener.
Proof.
  intros Hcss Hcs Hsub Hh Hd Hc s0.
  destruct (lifecycle_restores css s Hcss Hsub Hh Hd Hc)
    as (Hc0 & Hi0 & Hs0 & Hl0).
  fold s0 in Hc0, Hi0, Hs0, Hl0.
  destruct (run_session_frame cs (exec activate s0) Hcs)
    as (_ & _ & _ & _ & Hitems & _).
  destruct (session_restores cs s0 Hcs Hs0) as (_ & Hi1 & _ & Hl1 & _);
    [by rewrite Hc0 ..|].
  split_and!.
  - done.
  - apply next_item_fresh.
  - rewrite Hitems, activate_statusBarItems. unfold next_item.
    by rewrite Hi0.
  - by rewrite Hi1.
  - rewrite Hl1, Hl0, <- app_assoc. f_equal.
    change [SwanConfigListener] with (replicate 1 SwanConfigListener).
    rewrite <- replicate_add. f_equal. lia.
Qed.

Lemma statusBarItem_singleton_across_sessions_witness :
  let css := [[CallCommand "swan.helloWorld"];
              [CallWelcomeChoice None; CallCommand "swan.openDocs"]] in
  let cs := [CallCommand "swan.createProject"; CallInputBoxAnswer (Some "demo")] in
  size (statusBarItems (run cs (exec activate (lifecycle css fresh_install)))) = 1
  ∧ statusBarItems (session cs (lifecycle css fresh_install)) = ∅
  ∧ configListeners (session cs (lifecycle css fresh_install))
    = [SwanConfigListener; SwanConfigListener; SwanConfigListener].
Proof.
  intros css cs.
  assert (Forall (Forall (λ c, is_session_turn c = true)) css) as Hcss
    by (repeat constructor).
  assert (Forall (λ c, is_session_turn c = true) cs) as Hcs
    by (repeat constructor).
  destruct (statusBarItem_singleton_across_sessions css cs fresh_install
              Hcss Hcs eq_refl (lookup_empty _) (lookup_empty _) (lookup_empty _))
    as (_ & _ & Hduring & Hafter & Hl).
  split_and!.
  - rewrite Hduring. vm_compute. reflexivity.
  - exact Hafter.
  - exact Hl.
Defined.
